(** * airtable.Airtable: the record client of airtable-python-wrapper

    A shallow embedding of [src/airtable/airtable.py] and the properties of
    its pagination, chunking and bulk operations.

    Python values are an inductive type, the keyword dictionaries
    ([**options]) are finite maps, the methods of [Airtable] are functions
    in a state-and-exception monad whose state holds the remote service and
    the log of what was sent to it. *)

From stdpp Require Import base list strings gmap sorting pretty.
From Stdlib Require Import ZArith Lia Ascii.

Open Scope string_scope.
Open Scope list_scope.
Set Warnings "-register-all".

(** ** Python values *)

(** The values that travel through the client: what [json] decodes to and
    what callers pass as ids, fields and options.  Numbers are integers, a
    string is the sequence of its characters, a dictionary has string keys
    and keeps its insertion order (its keys are distinct; a lookup takes
    the first entry of a key). *)
Inductive value : Type :=
| VNone
| VBool (b : bool)
| VInt (z : Z)
| VStr (s : string)
| VList (l : list value)
| VDict (d : list (string * value)).

(** The exceptions the module raises or lets through. *)
Inductive exn : Type :=
| HTTPError
| RequestException
| JSONDecodeError
| RuntimeError (msg : string)
| KeyError (key : string)
| TypeError
| AttributeError
| ValueError.

Inductive result (A : Type) : Type :=
| Ok (a : A)
| Raise (e : exn).
Arguments Ok {A} a.
Arguments Raise {A} e.

(** [bool(v)] *)
Definition truthy (v : value) : bool :=
  match v with
  | VNone => false
  | VBool b => b
  | VInt z => negb (Z.eqb z 0)
  | VStr s => negb (String.eqb s "")
  | VList l => match l with [] => false | _ => true end
  | VDict d => match d with [] => false | _ => true end
  end.

Fixpoint chars (s : string) : list value :=
  match s with
  | EmptyString => []
  | String c s' => VStr (String c EmptyString) :: chars s'
  end.

(** [iter(v)], drained: the elements of a list, the keys of a dictionary,
    the characters of a string; [None] where Python raises [TypeError]. *)
Definition py_iter (v : value) : option (list value) :=
  match v with
  | VList l => Some l
  | VDict d => Some (map (fun kv => VStr (fst kv)) d)
  | VStr s => Some (chars s)
  | _ => None
  end.

Fixpoint assoc (key : string) (d : list (string * value)) : option value :=
  match d with
  | [] => None
  | (k, v) :: d' => if String.eqb k key then Some v else assoc key d'
  end.

(** [isinstance(v, dict)] and [isinstance(v, string_types)] *)
Definition isinstance_dict (v : value) : bool :=
  match v with VDict _ => true | _ => false end.

Definition isinstance_str (v : value) : bool :=
  match v with VStr _ => true | _ => false end.

(** [v.get(key, default)]: only dictionaries have the method. *)
Definition dict_get (v : value) (key : string) (default : value) : result value :=
  match v with
  | VDict d => Ok (match assoc key d with Some x => x | None => default end)
  | _ => Raise AttributeError
  end.

(** [v[key]] for a string key. *)
Definition getitem (v : value) (key : string) : result value :=
  match v with
  | VDict d => match assoc key d with Some x => Ok x | None => Raise (KeyError key) end
  | _ => Raise TypeError
  end.

(** ** Library functions the client calls *)

Fixpoint ends_with_slash (s : string) : bool :=
  match s with
  | EmptyString => false
  | String c EmptyString => Ascii.eqb c "/"%char
  | String _ s' => ends_with_slash s'
  end.

(** [posixpath.join(a, b)] *)
Definition posixpath_join (a b : string) : string :=
  if String.prefix "/" b then b
  else if String.eqb a "" || ends_with_slash a then a +:+ b
  else a +:+ "/" +:+ b.

(** [OrderedDict.__setitem__]: a known key keeps its place. *)
Fixpoint od_set (key : string) (v : value) (d : list (string * value))
  : list (string * value) :=
  match d with
  | [] => [(key, v)]
  | (k, x) :: d' => if String.eqb k key then (k, v) :: d' else (k, x) :: od_set key v d'
  end.

(** [OrderedDict.update] *)
Definition od_update (d e : list (string * value)) : list (string * value) :=
  fold_left (fun acc kv => od_set (fst kv) (snd kv) acc) e d.

Definition key_le (x y : string * value) : Prop := String.leb (fst x) (fst y) = true.

#[global] Instance key_le_dec x y : Decision (key_le x y).
Proof. unfold key_le. apply _. Defined.

(** [sorted(params.items())]: the keys of a keyword dictionary are distinct
    strings, so the items are ordered by key. *)
Definition sorted_items (params : gmap string value) : list (string * value) :=
  merge_sort key_le (map_to_list params).

(** ** The wire *)

Inductive http_method : Type := GET | POST | PUT | PATCH | DELETE.

(** What [session.request(method, url, params=..., json=...)] is given. *)
Record request : Type := mkRequest {
  method : http_method;
  url : string;
  params : option (list (string * value));
  json_data : option value
}.

(** What it answers: the status, and the body read by [response.json()]
    ([None] when the body is not JSON). *)
Record response : Type := mkResponse {
  status_code : Z;
  json : option value
}.

(** What the client does to the outside, in order. *)
Inductive event : Type :=
| Sent (rq : request)
| Slept.

(** The requests of a log. *)
Definition sent (evs : list event) : list request :=
  omap (fun ev => match ev with Sent rq => Some rq | Slept => None end) evs.

(** [requests.Session]: a service with a state of its own answers each
    request, or the connection fails ([None]). *)
Class Session : Type := {
  service : Type;
  session_request : request -> service -> option response * service
}.

(** The module [airtable.params], which is not part of the sources:
    [to_param_dict name v] is
    [AirtableParams._get(name)(v).to_param_dict()], and
    [from_name_and_value] is [AirtableParams.FormulaParam]'s. *)
Class AirtableParams : Type := {
  to_param_dict : string -> value -> result (list (string * value));
  from_name_and_value : value -> value -> value
}.

(** [six.moves.urllib.parse]: [quote(s, safe=empty)] and
    [urlencode(params, True)]. *)
Class Urllib : Type := {
  quote : string -> string;
  urlencode : list (string * value) -> string
}.

(** ** Ranges and slices *)

(** [range(0, stop, step)] for a positive step: [ceil(stop / step)]
    positions. *)
Definition py_range (stop step : nat) : list nat :=
  map (fun i => i * step) (seq 0 ((stop + step - 1) / step)).

(** [seq[lo:hi]] for [0 <= lo <= hi]: slicing clips at the end. *)
Definition slice {A} (l : list A) (lo hi : nat) : list A :=
  take (hi - lo) (drop lo l).

(** ** State and exceptions *)

(** The state of a run: the service, and the log of what the client did
    so far. *)
Record state (W : Type) : Type := mkState {
  remote : W;
  log : list event
}.
Arguments mkState {W} remote log.
Arguments remote {W} s.
Arguments log {W} s.

Section Run.
Context `{Session}.

(** A method body: it ends with a value or an exception, in a new state. *)
Definition M (A : Type) : Type := state service -> result A * state service.

(** A method that may loop: [None] when the fuel ran out first. *)
Definition D (A : Type) : Type :=
  state service -> option (result A * state service).

#[global] Instance M_ret : MRet M := fun A a s => (Ok a, s).
#[global] Instance M_bind : MBind M := fun A B f m s =>
  match m s with
  | (Ok a, s') => f a s'
  | (Raise e, s') => (Raise e, s')
  end.

#[global] Instance D_ret : MRet D := fun A a s => Some (Ok a, s).
#[global] Instance D_bind : MBind D := fun A B f m s =>
  match m s with
  | Some (Ok a, s') => f a s'
  | Some (Raise e, s') => Some (Raise e, s')
  | None => None
  end.

Definition raise {A} (e : exn) : M A := fun s => (Raise e, s).
Definition lift {A} (r : result A) : M A := fun s => (r, s).
Definition total {A} (m : M A) : D A := fun s => Some (m s).

(** [time.sleep(self.API_LIMIT)]: the pause between two calls, a fifth of
    a second unless the caller changed it.  The log keeps that it was
    taken. *)
Definition sleep : M unit :=
  fun s => (Ok tt, {| remote := remote s; log := log s ++ [Slept] |}).

(** [list(v)] and the loop header of [for x in v]. *)
Definition to_list (v : value) : M (list value) :=
  match py_iter v with
  | Some l => mret l
  | None => raise TypeError
  end.

End Run.

Module Airtable.

Definition VERSION : string := "v0".
Definition API_BASE_URL : string := "https://api.airtable.com/".
Definition API_URL : string := posixpath_join API_BASE_URL VERSION.
Definition MAX_RECORDS_PER_CALL : nat := 10.

(** [Airtable.chunker], on the items of the sequence. *)
Definition chunker {A} (seq : list A) : list (list A) :=
  map (fun pos => slice seq pos (pos + MAX_RECORDS_PER_CALL))
      (py_range (length seq) MAX_RECORDS_PER_CALL).

(** [chunker] on a Python value: a list or a string is sliced, an empty
    dictionary has no position to slice at, and the rest has no [len] or
    cannot be sliced. *)
Definition chunks_of (seq : value) : result (list value) :=
  match seq with
  | VList l => Ok (map VList (chunker l))
  | VStr s =>
      Ok (map (fun c => VStr (String.string_of_list_ascii c)) (chunker (String.list_ascii_of_string s)))
  | VDict [] => Ok []
  | _ => Raise TypeError
  end.

(** The instance: [self.table_name] and [self.url_table]. *)
Record client : Type := mkClient {
  table_name : string;
  url_table : string
}.

Section Client.
Context `{Session} `{AirtableParams} `{Urllib}.

Definition __init__ (base_key table : string) : client :=
  {| table_name := table;
     url_table := posixpath_join (posixpath_join API_URL base_key) (quote table) |}.

(** *** Requests *)

Definition _process_params (params : gmap string value)
  : result (list (string * value)) :=
  fold_left
    (fun acc item =>
       match acc with
       | Ok new_params =>
           match to_param_dict (fst item) (snd item) with
           | Ok d => Ok (od_update new_params d)
           | Raise e => Raise e
           end
       | Raise e => Raise e
       end)
    (sorted_items params) (Ok []).

(** ["error" in error_dict] *)
Definition has_error (error_dict : value) : option bool :=
  match error_dict with
  | VDict d => Some (bool_decide (is_Some (assoc "error" d)))
  | VList l =>
      Some (existsb (fun x => match x with VStr s => String.eqb s "error" | _ => false end) l)
  | VStr s => Some (bool_decide (is_Some (String.index 0 "error" s)))
  | _ => None
  end.

(** [raise_for_status] raises for the statuses 400 to 599.  The text of
    the [HTTPError] is left out; what decides which exception leaves the
    handler is kept: a body that is no JSON is passed over, and the test
    and lookup of ["error"] can fail on a body that is no dictionary. *)
Definition _process_response (r : response) : result value :=
  if bool_decide (400 <= status_code r < 600)%Z then
    match json r with
    | None => Raise HTTPError
    | Some error_dict =>
        match has_error error_dict with
        | None => Raise TypeError
        | Some true =>
            match getitem error_dict "error" with
            | Ok _ => Raise HTTPError
            | Raise e => Raise e
            end
        | Some false => Raise HTTPError
        end
    end
  else
    match json r with
    | Some v => Ok v
    | None => Raise JSONDecodeError
    end.

Section Methods.
Variable self : client.

(** A record id that is no string cannot be joined to a path. *)
Definition record_url (record_id : value) : result string :=
  match record_id with
  | VStr s => Ok (posixpath_join (url_table self) s)
  | _ => Raise TypeError
  end.

Definition _request (meth : http_method) (u : string)
    (ps : option (list (string * value))) (body : option value) : M value :=
  fun s =>
    let rq := mkRequest meth u ps body in
    let (answer, remote') := session_request rq (remote s) in
    let s' := {| remote := remote'; log := log s ++ [Sent rq] |} in
    match answer with
    | Some r => (_process_response r, s')
    | None => (Raise RequestException, s')
    end.

Definition _get (u : string) (ps : gmap string value) : M value :=
  processed_params ← lift (_process_params ps);
  _request GET u (Some processed_params) None.

Definition _post (u : string) (body : value) : M value :=
  _request POST u None (Some body).

Definition _put (u : string) (body : value) : M value :=
  _request PUT u None (Some body).

Definition _patch (u : string) (body : value) : M value :=
  _request PATCH u None (Some body).

Definition _delete (u : string) : M value :=
  _request DELETE u None None.

Definition get (record_id : value) : M value :=
  u ← lift (record_url record_id);
  _get u ∅.

(** *** Listing *)

(** The call [self._get(self.url_table, offset=offset, **options)]: a
    keyword the call already binds cannot come again from [options]. *)
Definition _get_page (offset : value) (options : gmap string value) : M value :=
  if bool_decide (is_Some (options !! "offset") \/ is_Some (options !! "url")
                  \/ is_Some (options !! "self"))
  then raise TypeError
  else _get (url_table self) (<["offset" := offset]> options).

(** [get_iter] is a generator.  Between two [next] it is suspended at its
    [yield], holding the response [data] it read the page from. *)
Inductive generator : Type :=
| Created
| Suspended (data : value)
| Finished.

(** The loop body, from the request to [yield records]. *)
Definition get_iter_body (options : gmap string value) (offset : value)
  : M (value * generator) :=
  data ← _get_page offset options;
  records ← lift (dict_get data "records" (VList []));
  _ ← sleep;
  mret (records, Suspended data).

(** [next(g)] on the generator made by [get_iter] for [options]: the page yielded
    and the generator suspended again, or [None] for [StopIteration]. *)
Definition get_iter (options : gmap string value) (g : generator)
  : M (option (value * generator)) :=
  match g with
  | Created =>
      page ← get_iter_body options VNone;
      mret (Some page)
  | Suspended data =>
      offset ← lift (dict_get data "offset" VNone);
      if truthy offset then
        page ← get_iter_body options offset;
        mret (Some page)
      else mret None
  | Finished => mret None
  end.

(** The [for] loop of [get_all], one unit of fuel for each [next]. *)
Fixpoint get_all_loop (fuel : nat) (options : gmap string value)
    (g : generator) (all_records : list value) : D (list value) :=
  match fuel with
  | 0 => fun _ => None
  | S fuel' =>
      step ← total (get_iter options g);
      match step with
      | None => mret all_records
      | Some (records, g') =>
          l ← total (to_list records);
          get_all_loop fuel' options g' (all_records ++ l)
      end
  end.

Definition get_all (fuel : nat) (options : gmap string value) : D (list value) :=
  get_all_loop fuel options Created [].

Definition match_ (fuel : nat) (field_name field_value : value)
    (options : gmap string value) : D value :=
  let formula := from_name_and_value field_name field_value in
  let options := <["formula" := formula]> options in
  records ← get_all fuel options;
  mret (match records with
        | record :: _ => record
        | [] => VDict []
        end).

(** [search(self, field_name, field_value, record=None, **options)]: of
    the keywords of a call, the one named [record] binds the parameter of
    that name, which the body never reads, and the others are [options]. *)
Definition search (fuel : nat) (field_name field_value : value)
    (keywords : gmap string value) : D (list value) :=
  let record := default VNone (keywords !! "record") in
  let options := delete "record" keywords in
  let formula := from_name_and_value field_name field_value in
  let options := <["formula" := formula]> options in
  get_all fuel options.

(** *** Writing *)

Definition insert (fields_or_records typecast : value) : M value :=
  if isinstance_dict fields_or_records then
    let fields := fields_or_records in
    _post (url_table self) (VDict [("fields", fields); ("typecast", typecast)])
  else
    fs ← to_list fields_or_records;
    let records := map (fun fields => VDict [("fields", fields)]) fs in
    if bool_decide (MAX_RECORDS_PER_CALL < length records) then
      raise (RuntimeError "Only 10 records can be inserted per call")
    else
      _post (url_table self)
        (VDict [("records", VList records); ("typecast", typecast)]).

(** The loop of [_batch_request] over the chunks left, [responses] being
    the list built so far. *)
Fixpoint _batch_loop (func : value -> M value) (chunks : list value)
    (responses : list value) : M (list value) :=
  match chunks with
  | [] => mret responses
  | iterable_chunk :: rest =>
      r ← func iterable_chunk;
      l ← to_list r;
      _ ← sleep;
      _batch_loop func rest (responses ++ l)
  end.

(** [func] stands for the call with [**kwargs] already given. *)
Definition _batch_request (func : value -> M value) (iterable : value)
  : M (list value) :=
  chunks ← lift (chunks_of iterable);
  _batch_loop func chunks [].

Definition batch_insert (records typecast : value) : M (list value) :=
  _batch_request (fun chunk => insert chunk typecast) records.

Definition update_records (records typecast : value) : M value :=
  records ← to_list records;
  if bool_decide (MAX_RECORDS_PER_CALL < length records) then
    raise (RuntimeError "Only 10 records can be updated per call")
  else
    _patch (url_table self)
      (VDict [("records", VList records); ("typecast", typecast)]).

Definition update (record_id fields typecast records : value) : M value :=
  if truthy record_id && truthy fields then
    u ← lift (record_url record_id);
    _patch u (VDict [("fields", fields); ("typecast", typecast)])
  else if truthy records then
    update_records records (VBool false)
  else
    raise (RuntimeError "update must have record_id and fields set OR records set").

Definition update_by_field (fuel : nat) (field_name field_value fields typecast : value)
    (options : gmap string value) : D value :=
  record ← match_ fuel field_name field_value options;
  if negb (truthy record) then mret (VDict [])
  else
    record_id ← total (lift (getitem record "id"));
    total (update record_id fields typecast VNone).

Definition batch_update (records typecast : value) : M (list value) :=
  _batch_request (fun chunk => update_records chunk typecast) records.

Definition replace (record_id fields typecast : value) : M value :=
  u ← lift (record_url record_id);
  _put u (VDict [("fields", fields); ("typecast", typecast)]).

Definition replace_by_field (fuel : nat) (field_name field_value fields typecast : value)
    (options : gmap string value) : D value :=
  record ← match_ fuel field_name field_value options;
  if negb (truthy record) then mret (VDict [])
  else
    record_id ← total (lift (getitem record "id"));
    total (replace record_id fields typecast).

Definition delete (record_id_or_record_ids : value) : M value :=
  if isinstance_str record_id_or_record_ids then
    let record_id := record_id_or_record_ids in
    u ← lift (record_url record_id);
    _delete u
  else
    record_ids ← to_list record_id_or_record_ids;
    if bool_decide (MAX_RECORDS_PER_CALL < length record_ids) then
      raise (RuntimeError "Only 10 records can be deleted per call")
    else
      let url_encoded_record_ids := urlencode [("records[]", VList record_ids)] in
      _delete (url_table self +:+ "?" +:+ url_encoded_record_ids).

Definition delete_by_field (fuel : nat) (field_name field_value : value)
    (options : gmap string value) : D value :=
  record ← match_ fuel field_name field_value options;
  record_id ← total (lift (getitem record "id"));
  u ← total (lift (record_url record_id));
  total (_delete u).

Definition batch_delete (record_ids : value) : M (list value) :=
  _batch_request delete record_ids.

(** [[r["id"] for r in rs]] *)
Fixpoint ids_of (rs : list value) : result (list value) :=
  match rs with
  | [] => Ok []
  | r :: rs' =>
      match getitem r "id" with
      | Ok i =>
          match ids_of rs' with
          | Ok l => Ok (i :: l)
          | Raise e => Raise e
          end
      | Raise e => Raise e
      end
  end.

Definition mirror (fuel : nat) (records : value) (options : gmap string value)
  : D (list value * list value) :=
  all ← get_all fuel options;
  all_record_ids ← total (lift (ids_of all));
  deleted_records ← total (batch_delete (VList all_record_ids));
  new_records ← total (batch_insert records (VBool false));
  mret (new_records, deleted_records).

End Methods.
End Client.

End Airtable.

(** ** A table held in memory

    A small service to run the client against: rows with an id, the views
    that show them and their fields; listing by view, by formula and in
    pages; creation, update and deletion, one record or several at a
    time.  A bulk call is answered with the list of its records, as the
    docstrings of [insert] and [delete] describe their results. *)
Module Sim.

Record row : Type := mkRow {
  row_id : string;
  row_views : list string;
  row_fields : list (string * value)
}.

Record table : Type := mkTable {
  rows : list row;
  created : nat
}.

#[global] Instance table_params : AirtableParams := {|
  to_param_dict name v :=
    if String.eqb name "view" then Ok [("view", v)]
    else if String.eqb name "formula" then Ok [("filterByFormula", v)]
    else if String.eqb name "offset" then Ok [("offset", v)]
    else if String.eqb name "page_size" then Ok [("pageSize", v)]
    else if String.eqb name "max_records" then Ok [("maxRecords", v)]
    else Raise ValueError;
  from_name_and_value name v :=
    match name, v with
    | VStr n, VStr x => VStr ("{" +:+ n +:+ "}='" +:+ x +:+ "'")
    | _, _ => VStr ""
    end
|}.

Definition encode_ids (key : string) (v : value) : list string :=
  match v with
  | VList l => omap (fun x => match x with VStr i => Some (key +:+ "=" +:+ i) | _ => None end) l
  | _ => []
  end.

#[global] Instance table_urllib : Urllib := {|
  quote s := s;
  urlencode ps := String.concat "&" (flat_map (fun kv => encode_ids (fst kv) (snd kv)) ps)
|}.

Definition base : Airtable.client := Airtable.__init__ "app1" "Table".

Definition record_of (r : row) : value :=
  VDict [("id", VStr (row_id r)); ("fields", VDict (row_fields r))].

Definition satisfies (formula : string) (r : row) : bool :=
  existsb (fun kv => match from_name_and_value (VStr (fst kv)) (snd kv) with
                     | VStr f => String.eqb f formula && isinstance_str (snd kv)
                     | _ => false
                     end)
          (row_fields r).

Definition visible (ps : list (string * value)) (r : row) : bool :=
  match assoc "view" ps with
  | Some (VStr v) => bool_decide (v ∈ row_views r)
  | _ => true
  end
  && match assoc "filterByFormula" ps with
     | Some (VStr f) => satisfies f r
     | _ => true
     end.

Fixpoint from_id (i : string) (rs : list row) : list row :=
  match rs with
  | [] => []
  | r :: rs' => if String.eqb (row_id r) i then rs else from_id i rs'
  end.

Definition list_records (ps : list (string * value)) (t : table) : value :=
  let shown := filter (fun r => visible ps r = true) (rows t) in
  let rest := match assoc "offset" ps with
              | Some (VStr i) => from_id i shown
              | _ => shown
              end in
  let n := match assoc "pageSize" ps with
           | Some (VInt z) => Z.to_nat z
           | _ => 100
           end in
  VDict (("records", VList (map record_of (take n rest)))
         :: match drop n rest with
            | r :: _ => [("offset", VStr (row_id r))]
            | [] => []
            end).

Definition fields_of (v : value) : list (string * value) :=
  match v with
  | VDict d => match assoc "fields" d with Some (VDict f) => f | _ => [] end
  | _ => []
  end.

Definition create (t : table) (v : value) : row * table :=
  let r := mkRow ("rec" +:+ pretty (created t)) [] (fields_of v) in
  (r, mkTable (rows t ++ [r]) (S (created t))).

Fixpoint create_all (t : table) (vs : list value) : list row * table :=
  match vs with
  | [] => ([], t)
  | v :: vs' =>
      let (r, t1) := create t v in
      let (rs, t2) := create_all t1 vs' in
      (r :: rs, t2)
  end.

Fixpoint split_on (c : ascii) (s : string) : list string :=
  match s with
  | EmptyString => [EmptyString]
  | String a s' =>
      if Ascii.eqb a c then EmptyString :: split_on c s'
      else match split_on c s' with
           | h :: t => String a h :: t
           | [] => [String a EmptyString]
           end
  end.

Definition after (prefix s : string) : option string :=
  if String.prefix prefix s
  then Some (String.substring (String.length prefix) (String.length s - String.length prefix) s)
  else None.

Definition has_id (t : table) (i : string) : bool :=
  existsb (fun r => String.eqb (row_id r) i) (rows t).

Definition remove (t : table) (ids : list string) : table :=
  mkTable (filter (fun r => row_id r ∉ ids) (rows t)) (created t).

(** The fields of row [i] become [f], or are updated with [f] when the
    others are to be kept. *)
Definition amend (keep : bool) (t : table) (change : string * list (string * value)) : table :=
  let (i, f) := change in
  mkTable
    (map (fun r => if String.eqb (row_id r) i
                   then mkRow (row_id r) (row_views r)
                          (if keep then od_update (row_fields r) f else f)
                   else r)
         (rows t))
    (created t).

Definition change_of (v : value) : option (string * list (string * value)) :=
  match v with
  | VDict d =>
      match assoc "id" d with
      | Some (VStr i) => Some (i, fields_of v)
      | _ => None
      end
  | _ => None
  end.

Definition records_of (t : table) (ids : list string) : list value :=
  map record_of (filter (fun r => row_id r ∈ ids) (rows t)).

Definition confirmation (i : string) : value :=
  VDict [("deleted", VBool true); ("id", VStr i)].

Definition ok (v : value) : option response := Some (mkResponse 200 (Some v)).

Definition not_found : option response :=
  Some (mkResponse 404 (Some (VDict [("error", VStr "NOT_FOUND")]))).

Definition serve (rq : request) (t : table) : option response * table :=
  let home := Airtable.url_table base in
  match method rq with
  | GET =>
      if String.eqb (url rq) home
      then (ok (list_records (default [] (params rq)) t), t)
      else (not_found, t)
  | POST =>
      match json_data rq with
      | Some (VDict d) =>
          if negb (String.eqb (url rq) home) then (not_found, t)
          else match assoc "records" d with
               | Some (VList vs) =>
                   let (rs, t') := create_all t vs in
                   (ok (VList (map record_of rs)), t')
               | _ =>
                   let (r, t') := create t (VDict d) in
                   (ok (record_of r), t')
               end
      | _ => (not_found, t)
      end
  | DELETE =>
      match after (home +:+ "/") (url rq), after (home +:+ "?") (url rq) with
      | Some i, _ =>
          if has_id t i then (ok (confirmation i), remove t [i]) else (not_found, t)
      | None, Some query =>
          let ids := omap (after "records[]=") (split_on "&" query) in
          if forallb (has_id t) ids
          then (ok (VList (map confirmation ids)), remove t ids)
          else (not_found, t)
      | None, None => (not_found, t)
      end
  | PATCH | PUT =>
      let keep := match method rq with PATCH => true | _ => false end in
      match json_data rq with
      | Some (VDict d) =>
          match after (home +:+ "/") (url rq) with
          | Some i =>
              if has_id t i
              then let t' := amend keep t (i, fields_of (VDict d)) in
                   (ok (default VNone (head (records_of t' [i]))), t')
              else (not_found, t)
          | None =>
              match assoc "records" d with
              | Some (VList vs) =>
                  let changes := omap change_of vs in
                  if String.eqb (url rq) home && forallb (fun c => has_id t (fst c)) changes
                  then let t' := fold_left (amend keep) changes t in
                       (ok (VList (records_of t' (map fst changes))), t')
                  else (not_found, t)
              | _ => (not_found, t)
              end
          end
      | _ => (not_found, t)
      end
  end.

#[global] Instance table_session : Session := {|
  service := table;
  session_request := serve
|}.

(** The same table behind an endpoint that wraps the records of a bulk
    answer in an object, under the key ["records"]. *)
Definition wrapping : Session := {|
  service := table;
  session_request rq t :=
    let (answer, t') := serve rq t in
    (match answer with
     | Some (mkResponse status (Some (VList l))) =>
         Some (mkResponse status (Some (VDict [("records", VList l)])))
     | _ => answer
     end, t')
|}.

Definition start (t : table) : state table := mkState t [].

(** Two rows shown by the view ["V"], a third that is not. *)
Definition three_rows : table :=
  mkTable [ mkRow "recA" ["V"] [("Name", VStr "John")];
            mkRow "recB" ["V"] [("Name", VStr "Marc")];
            mkRow "recC" [] [("Name", VStr "Zoe")] ] 0.

Definition empty_table : table := mkTable [] 0.

Definition named (n : string) : value := VDict [("Name", VStr n)].

(** Twenty-three fields-mappings to insert, and the record the empty
    table makes of each. *)
Definition people : list value := map (fun i => named (pretty i)) (seq 0 23).

(** The table once they are inserted: rows ["rec0"] to ["rec22"]. *)
Definition crowd : table := snd (create_all empty_table people).

Definition inserted (i : nat) : value :=
  VDict [("id", VStr ("rec" +:+ pretty i)); ("fields", named (pretty i))].

End Sim.

(** ** What the properties are stated with *)

(** The error of [update] called in neither of its two forms. *)
Definition usage_error : exn :=
  RuntimeError "update must have record_id and fields set OR records set".

Section Observations.
Context `{Session} `{AirtableParams} `{Urllib}.
Variable self : Airtable.client.

(** The state [s'] continues [s]: its log is the log of [s] followed by
    events whose requests all satisfy [P]. *)
Definition grows_by (P : request -> Prop) (s s' : state service) : Prop :=
  exists evs, log s' = log s ++ evs /\ Forall P (sent evs).

(** Whatever a method body does, it only sends requests that satisfy
    [P]. *)
Definition sends {A} (P : request -> Prop) (m : M A) : Prop :=
  forall s r s', m s = (r, s') -> grows_by P s s'.

Definition sends_if_ends {A} (P : request -> Prop) (m : D A) : Prop :=
  forall s r s', m s = Some (r, s') -> grows_by P s s'.

Definition slept (s : state service) : state service :=
  {| remote := remote s; log := log s ++ [Slept] |}.

(** The service in state [w] answers the request [rq] with the JSON value
    [v] and goes to state [w']. *)
Definition answers (w : service) (rq : request) (v : value) (w' : service) : Prop :=
  exists r, session_request rq w = (Some r, w') /\ Airtable._process_response r = Ok v.

(** The listing request of [get_iter] for [options] at some offset. *)
Definition listing_request (options : gmap string value) (rq : request) : Prop :=
  exists offset ps,
    Airtable._process_params (<["offset" := offset]> options) = Ok ps
    /\ rq = mkRequest GET (Airtable.url_table self) (Some ps) None.

(** The POST of a group of fields-mappings by [insert]. *)
Definition insert_request (group : list value) (typecast : value) : request :=
  mkRequest POST (Airtable.url_table self) None
    (Some (VDict [("records", VList (map (fun fields => VDict [("fields", fields)]) group));
                  ("typecast", typecast)])).

(** The DELETE of a group of ids by [delete]. *)
Definition delete_request (ids : list value) : request :=
  mkRequest DELETE
    (Airtable.url_table self +:+ "?" +:+ urlencode [("records[]", VList ids)]) None None.

(** A listing response: a dictionary whose ["records"], when present, is a
    list. *)
Definition is_page (data : value) : Prop :=
  exists d, data = VDict d
            /\ (assoc "records" d = None \/ exists l, assoc "records" d = Some (VList l)).

Definition page_records (d : list (string * value)) : list value :=
  match assoc "records" d with
  | Some (VList l) => l
  | _ => []
  end.

(** The continuation token of a response, when it has one that is not
    empty. *)
Definition token (d : list (string * value)) : option value :=
  match assoc "offset" d with
  | Some t => if truthy t then Some t else None
  | None => None
  end.

(** What [data.get("records", [])] reads in a response. *)
Definition records_value (d : list (string * value)) : value :=
  match assoc "records" d with
  | Some x => x
  | None => VList []
  end.

(** The offset of the request the next [next(g)] sends, if it sends
    one. *)
Definition next_offset (g : Airtable.generator) : option value :=
  match g with
  | Airtable.Created => Some VNone
  | Airtable.Suspended (VDict d) => token d
  | _ => None
  end.

(** The generator is where [get_iter] can leave it: a response it is
    suspended on is a dictionary. *)
Definition reachable (g : Airtable.generator) : Prop :=
  match g with
  | Airtable.Suspended (VDict _) | Airtable.Created | Airtable.Finished => True
  | Airtable.Suspended _ => False
  end.

(** The transport model of the listing endpoint: whatever the offset and
    the state, the listing request is answered by a page. *)
Definition listing_service (options : gmap string value) : Prop :=
  forall offset s, exists data s',
    Airtable._get_page self offset options s = (Ok data, s') /\ is_page data.

(** The pages the service hands out from an offset on, each response's
    token being the offset of the next request, until a response has no
    token: [listing options (Some offset) s pages s'].  There is such a
    finite run exactly when a response without token is reached. *)
Inductive listing (options : gmap string value)
  : option value -> state service -> list (list value) -> state service -> Prop :=
| listing_end s :
    listing options None s [] s
| listing_next offset s d s1 pages s' :
    Airtable._get_page self offset options s = (Ok (VDict d), s1) ->
    listing options (token d) (slept s1) pages s' ->
    listing options (Some offset) s (page_records d :: pages) s'.

(** The operation [func] run over groups in order, a pause after each: the
    results of each call, read as a sequence. *)
Inductive batch_run (func : value -> M value)
  : list value -> state service -> list (list value) -> state service -> Prop :=
| batch_run_nil s :
    batch_run func [] s [] s
| batch_run_cons group groups s v s1 l ls s' :
    func group s = (Ok v, s1) ->
    py_iter v = Some l ->
    batch_run func groups (slept s1) ls s' ->
    batch_run func (group :: groups) s (l :: ls) s'.

End Observations.

(** Shows that a given service answers a given request, by running it. *)
Ltac answered :=
  eexists; split; vm_compute; reflexivity.

(** ** More to state properties with *)

Section MoreObservations.
Context `{Session} `{AirtableParams} `{Urllib}.
Variable self : Airtable.client.

(** The PATCH of a group of records by [update_records]. *)
Definition update_request (group : list value) (typecast : value) : request :=
  mkRequest PATCH (Airtable.url_table self) None
    (Some (VDict [("records", VList group); ("typecast", typecast)])).

(** Requests sent one after the other, a pause after each. *)
Definition paced (rqs : list request) : list event :=
  flat_map (fun rq => [Sent rq; Slept]) rqs.

(** The run of the listing from an offset on breaks with the exception
    [e]: a request raises it, or a response is no dictionary
    ([AttributeError] at [data.get]), or its records cannot be iterated
    ([TypeError] at [extend]); the responses before it had a token. *)
Inductive listing_breaks (options : gmap string value)
  : value -> state service -> exn -> state service -> Prop :=
| breaks_request offset s e s' :
    Airtable._get_page self offset options s = (Raise e, s') ->
    listing_breaks options offset s e s'
| breaks_shape offset s data s1 :
    Airtable._get_page self offset options s = (Ok data, s1) ->
    isinstance_dict data = false ->
    listing_breaks options offset s AttributeError s1
| breaks_records offset s d s1 :
    Airtable._get_page self offset options s = (Ok (VDict d), s1) ->
    py_iter (records_value d) = None ->
    listing_breaks options offset s TypeError (slept s1)
| breaks_later offset s d s1 l t e s' :
    Airtable._get_page self offset options s = (Ok (VDict d), s1) ->
    py_iter (records_value d) = Some l ->
    token d = Some t ->
    listing_breaks options t (slept s1) e s' ->
    listing_breaks options offset s e s'.

(** The body of the loop of [_process_params]. *)
Definition params_step (acc : result (list (string * value))) (item : string * value)
  : result (list (string * value)) :=
  match acc with
  | Ok new_params =>
      match to_param_dict (fst item) (snd item) with
      | Ok d => Ok (od_update new_params d)
      | Raise e => Raise e
      end
  | Raise e => Raise e
  end.

End MoreObservations.

(** ** Properties of the chunker *)

Example chunker_23_items :
  Airtable.chunker (seq 0 23)
  = [seq 0 10; seq 10 10; [20; 21; 22]].
Proof. reflexivity. Qed.

Example chunker_20_items : map length (Airtable.chunker (seq 0 20)) = [10; 10].
Proof. reflexivity. Qed.

Example record_url_joins :
  Airtable.record_url Sim.base (VStr "recA")
  = Ok "https://api.airtable.com/v0/app1/Table/recA".
Proof. reflexivity. Qed.

Example posixpath_join_rooted : posixpath_join "a/b" "/c" = "/c".
Proof. reflexivity. Qed.

Lemma py_range_10_nil : py_range 0 10 = [].
Proof. reflexivity. Qed.

Lemma py_range_10_step n :
  py_range (S n + 10) 10 = 0 :: map (fun p => p + 10) (py_range (S n) 10).
Proof.
  unfold py_range.
  replace ((S n + 10 + 10 - 1) / 10) with (S ((S n + 10 - 1) / 10)).
  2:{ replace (S n + 10 + 10 - 1) with ((S n + 10 - 1) + 1 * 10) by lia.
      rewrite Nat.div_add by lia. lia. }
  rewrite <- cons_seq. cbn [map]. f_equal.
  rewrite <- fmap_S_seq, <- !list_fmap_compose.
  apply list_fmap_ext. intros _ i _. simpl. lia.
Qed.

Lemma py_range_10_short n :
  0 < n <= 10 -> py_range n 10 = [0].
Proof.
  intros Hn. unfold py_range.
  replace ((n + 10 - 1) / 10) with 1; [reflexivity|].
  apply Nat.div_unique with (r := n - 1); lia.
Qed.

Lemma chunker_nil {A} : Airtable.chunker (@nil A) = [].
Proof. reflexivity. Qed.

Lemma chunker_short {A} (l : list A) :
  0 < length l <= 10 -> Airtable.chunker l = [l].
Proof.
  intros Hl. unfold Airtable.chunker, Airtable.MAX_RECORDS_PER_CALL.
  rewrite py_range_10_short by done. cbn [map]. unfold slice.
  rewrite drop_0. replace (0 + 10 - 0) with 10 by lia.
  by rewrite take_ge by lia.
Qed.

Lemma chunker_long {A} (l : list A) :
  10 < length l -> Airtable.chunker l = take 10 l :: Airtable.chunker (drop 10 l).
Proof.
  intros Hl. unfold Airtable.chunker, Airtable.MAX_RECORDS_PER_CALL.
  rewrite length_drop.
  destruct (length l - 10) as [|n] eqn:Hn; [lia|].
  replace (length l) with (S n + 10) by lia.
  rewrite py_range_10_step. cbn [map]. f_equal.
  rewrite <- list_fmap_compose. apply list_fmap_ext. intros _ p _. simpl.
  unfold slice. rewrite drop_drop.
  replace (p + 10 + 10 - (p + 10)) with (p + 10 - p) by lia.
  by replace (10 + p) with (p + 10) by lia.
Qed.

(** Induction along the chunks of a sequence. *)
Lemma chunker_ind {A} (P : list A -> Prop) :
  P [] ->
  (forall l, 0 < length l <= 10 -> P l) ->
  (forall l, 10 < length l -> P (drop 10 l) -> P l) ->
  forall l, P l.
Proof.
  intros Hnil Hshort Hlong l.
  remember (length l) as n eqn:Hn. revert l Hn.
  induction n as [n IH] using lt_wf_ind. intros l ->.
  destruct (decide (length l = 0)) as [H0|H0].
  { destruct l; [done|simpl in H0; lia]. }
  destruct (decide (length l <= 10)) as [Hle|Hgt].
  { apply Hshort. lia. }
  apply Hlong; [lia|].
  apply (IH (length (drop 10 l))); [rewrite length_drop; lia|done].
Qed.

Lemma chunker_concat {A} (l : list A) : concat (Airtable.chunker l) = l.
Proof.
  induction l as [|l Hl|l Hl IH] using chunker_ind.
  - reflexivity.
  - rewrite chunker_short by done. simpl. by rewrite app_nil_r.
  - rewrite chunker_long by done. simpl. rewrite IH. apply take_drop.
Qed.

Lemma chunker_lengths {A} (l : list A) :
  Forall (fun c => 1 <= length c <= 10) (Airtable.chunker l).
Proof.
  induction l as [|l Hl|l Hl IH] using chunker_ind.
  - constructor.
  - rewrite chunker_short by done. constructor; [lia|constructor].
  - rewrite chunker_long by done. constructor; [|done].
    rewrite length_take. lia.
Qed.

Lemma chunker_full {A} (l : list A) i c :
  Airtable.chunker l !! i = Some c -> S i < length (Airtable.chunker l) -> length c = 10.
Proof.
  revert i. induction l as [|l Hl|l Hl IH] using chunker_ind; intros i.
  - done.
  - rewrite chunker_short by done. simpl. lia.
  - rewrite chunker_long by done. destruct i as [|i]; simpl.
    + intros [= <-] _. rewrite length_take. lia.
    + intros Hc Hi. apply (IH i); [done|lia].
Qed.

(** C1. Concatenating the chunks of a sequence gives the sequence back;
    every chunk but the last holds exactly [Airtable.MAX_RECORDS_PER_CALL] = 10
    items, the last one between 1 and 10; the empty sequence has no
    chunk. *)
Theorem chunker_partition {A} (xs : list A) :
  concat (Airtable.chunker xs) = xs
  /\ (forall i c, Airtable.chunker xs !! i = Some c ->
                 i + 1 < length (Airtable.chunker xs) ->
                 length c = Airtable.MAX_RECORDS_PER_CALL)
  /\ (forall c, last (Airtable.chunker xs) = Some c ->
               1 <= length c <= Airtable.MAX_RECORDS_PER_CALL)
  /\ Airtable.chunker (@nil A) = [].
Proof.
  split; [apply chunker_concat|].
  split; [|split; [|apply chunker_nil]].
  - intros i c Hc Hi. apply (chunker_full xs i c Hc). lia.
  - intros c Hc. pose proof (chunker_lengths xs) as HF.
    rewrite Forall_forall in HF. apply HF.
    rewrite last_lookup in Hc. by eapply list_elem_of_lookup_2.
Qed.

(** ** Running method bodies *)

Section Running.
Context `{Session}.

Lemma bind_ok {A B} (m : M A) (f : A -> M B) s a s1 :
  m s = (Ok a, s1) -> (m ≫= f) s = f a s1.
Proof. intros Hm. unfold mbind, M_bind. by rewrite Hm. Qed.

Lemma bind_raise {A B} (m : M A) (f : A -> M B) s e s1 :
  m s = (Raise e, s1) -> (m ≫= f) s = (Raise e, s1).
Proof. intros Hm. unfold mbind, M_bind. by rewrite Hm. Qed.

Lemma bind_inv {A B} (m : M A) (f : A -> M B) s r s' :
  (m ≫= f) s = (r, s') ->
  (exists a s1, m s = (Ok a, s1) /\ f a s1 = (r, s'))
  \/ (exists e, m s = (Raise e, s') /\ r = Raise e).
Proof.
  unfold mbind, M_bind. destruct (m s) as [[a|e] s1]; intros Hr.
  - left. by exists a, s1.
  - right. exists e. by inversion Hr.
Qed.

Lemma bindD_ok {A B} (m : D A) (f : A -> D B) s a s1 :
  m s = Some (Ok a, s1) -> (m ≫= f) s = f a s1.
Proof. intros Hm. unfold mbind, D_bind. by rewrite Hm. Qed.

Lemma bindD_raise {A B} (m : D A) (f : A -> D B) s e s1 :
  m s = Some (Raise e, s1) -> (m ≫= f) s = Some (Raise e, s1).
Proof. intros Hm. unfold mbind, D_bind. by rewrite Hm. Qed.

Lemma bindD_inv {A B} (m : D A) (f : A -> D B) s r s' :
  (m ≫= f) s = Some (r, s') ->
  (exists a s1, m s = Some (Ok a, s1) /\ f a s1 = Some (r, s'))
  \/ (exists e, m s = Some (Raise e, s') /\ r = Raise e).
Proof.
  unfold mbind, D_bind. destruct (m s) as [[[a|e] s1]|]; intros Hr; [| |done].
  - left. by exists a, s1.
  - right. exists e. by inversion Hr.
Qed.

Lemma to_list_ok v l s : py_iter v = Some l -> to_list v s = (Ok l, s).
Proof. intros Hv. unfold to_list. by rewrite Hv. Qed.

Lemma to_list_inv v r s s' :
  to_list v s = (r, s') ->
  s' = s /\ match py_iter v with Some l => r = Ok l | None => r = Raise TypeError end.
Proof.
  unfold to_list. destruct (py_iter v); intros Hr; by inversion Hr.
Qed.

(** *** What is sent *)

Lemma sent_app evs1 evs2 : sent (evs1 ++ evs2) = sent evs1 ++ sent evs2.
Proof. unfold sent. apply omap_app. Qed.

Lemma grows_by_refl P s : grows_by P s s.
Proof. exists []. split; [by rewrite app_nil_r|constructor]. Qed.

Lemma grows_by_trans P s1 s2 s3 :
  grows_by P s1 s2 -> grows_by P s2 s3 -> grows_by P s1 s3.
Proof.
  intros (e1 & H1 & F1) (e2 & H2 & F2). exists (e1 ++ e2). split.
  - by rewrite H2, H1, app_assoc.
  - rewrite sent_app. by apply Forall_app.
Qed.

Lemma grows_by_weaken (P Q : request -> Prop) s s' :
  (forall rq, P rq -> Q rq) -> grows_by P s s' -> grows_by Q s s'.
Proof.
  intros HPQ (evs & Hl & HF). exists evs. split; [done|].
  by eapply Forall_impl.
Qed.

Lemma grows_by_slept P s : grows_by P s (slept s).
Proof. exists [Slept]. split; [done|constructor]. Qed.

Lemma sends_ret {A} P (a : A) : sends P (mret a).
Proof. intros s r s' [= <- <-]. apply grows_by_refl. Qed.

Lemma sends_raise {A} P e : sends P (@raise _ A e).
Proof. intros s r s' [= <- <-]. apply grows_by_refl. Qed.

Lemma sends_lift {A} P (x : result A) : sends P (lift x).
Proof. intros s r s' [= <- <-]. apply grows_by_refl. Qed.

Lemma sends_sleep P : sends P sleep.
Proof. intros s r s' [= <- <-]. apply grows_by_slept. Qed.

Lemma sends_to_list P v : sends P (to_list v).
Proof.
  intros s r s' Hr. apply to_list_inv in Hr as [-> _]. apply grows_by_refl.
Qed.

Lemma sends_bind {A B} P (m : M A) (f : A -> M B) :
  sends P m -> (forall a, sends P (f a)) -> sends P (m ≫= f).
Proof.
  intros Hm Hf s r s' Hr.
  apply bind_inv in Hr as [(a & s1 & Ha & Hfa)|(e & He & _)].
  - eapply grows_by_trans; [by eapply Hm|by eapply Hf].
  - by eapply Hm.
Qed.

Lemma sends_if_ends_total {A} P (m : M A) : sends P m -> sends_if_ends P (total m).
Proof. intros Hm s r s' [= Hr]. by eapply Hm. Qed.

Lemma sends_if_ends_ret {A} P (a : A) : sends_if_ends P (mret a).
Proof. intros s r s' [= <- <-]. apply grows_by_refl. Qed.

Lemma sends_if_ends_bind {A B} P (m : D A) (f : A -> D B) :
  sends_if_ends P m -> (forall a, sends_if_ends P (f a)) -> sends_if_ends P (m ≫= f).
Proof.
  intros Hm Hf s r s' Hr.
  apply bindD_inv in Hr as [(a & s1 & Ha & Hfa)|(e & He & _)].
  - eapply grows_by_trans; [by eapply Hm|by eapply Hf].
  - by eapply Hm.
Qed.

End Running.

Create HintDb sends.
#[global] Hint Resolve sends_ret sends_raise sends_lift sends_sleep sends_to_list : sends.

(** Goes through the binds of a method body, leaving the calls that send
    something. *)
Ltac sends_steps :=
  repeat first [ solve [auto with sends] | apply sends_bind; [|intro] ].

(** ** The requests of each method *)

Section Requests.
Context `{Session} `{AirtableParams} `{Urllib}.
Variable self : Airtable.client.

Lemma _request_sends (P : request -> Prop) meth u ps body :
  P (mkRequest meth u ps body) -> sends P (Airtable._request meth u ps body).
Proof.
  intros HP s r s'. unfold Airtable._request.
  destruct (session_request _ (remote s)) as [answer w] eqn:Hw.
  intros Hr. exists [Sent (mkRequest meth u ps body)]. split.
  - destruct answer; by inversion Hr.
  - by repeat constructor.
Qed.

Lemma _request_answered meth u ps body s v w' :
  answers (remote s) (mkRequest meth u ps body) v w' ->
  Airtable._request meth u ps body s
  = (Ok v, {| remote := w'; log := log s ++ [Sent (mkRequest meth u ps body)] |}).
Proof.
  intros (r & Hw & Hr). unfold Airtable._request. by rewrite Hw, Hr.
Qed.

Lemma _get_page_sends offset options :
  sends (listing_request self options) (Airtable._get_page self offset options).
Proof.
  unfold Airtable._get_page. case_bool_decide; [apply sends_raise|].
  unfold Airtable._get.
  destruct (Airtable._process_params (<["offset":=offset]> options)) as [ps|e] eqn:Hps.
  - intros s r s' Hr. erewrite bind_ok in Hr by reflexivity.
    revert Hr. apply _request_sends. by exists offset, ps.
  - intros s r s' Hr. erewrite bind_raise in Hr by reflexivity.
    inversion Hr; subst. apply grows_by_refl.
Qed.

Lemma get_iter_body_sends options offset :
  sends (listing_request self options) (Airtable.get_iter_body self options offset).
Proof.
  unfold Airtable.get_iter_body. sends_steps. apply _get_page_sends.
Qed.

#[local] Hint Resolve get_iter_body_sends : sends.

Lemma get_iter_sends options g :
  sends (listing_request self options) (Airtable.get_iter self options g).
Proof.
  destruct g as [|data|]; simpl; sends_steps.
  destruct (truthy _); sends_steps.
Qed.

Lemma get_all_loop_sends fuel options g acc :
  sends_if_ends (listing_request self options)
    (Airtable.get_all_loop self fuel options g acc).
Proof.
  revert g acc. induction fuel as [|fuel IH]; intros g acc; [by intros s r s'|].
  simpl. apply sends_if_ends_bind.
  { apply sends_if_ends_total, get_iter_sends. }
  intros [[records g']|]; [|apply sends_if_ends_ret].
  apply sends_if_ends_bind; [apply sends_if_ends_total, sends_to_list|].
  intros l. apply IH.
Qed.

Lemma get_all_sends fuel options :
  sends_if_ends (listing_request self options) (Airtable.get_all self fuel options).
Proof. apply get_all_loop_sends. Qed.

Lemma listing_request_get options rq :
  listing_request self options rq -> method rq = GET.
Proof. by intros (offset & ps & _ & ->). Qed.

Lemma insert_sends v typecast :
  sends (fun rq => method rq = POST) (Airtable.insert self v typecast).
Proof.
  unfold Airtable.insert, Airtable._post.
  destruct (isinstance_dict v); [by apply _request_sends|].
  sends_steps. simpl.
  case_bool_decide; [apply sends_raise|by apply _request_sends].
Qed.

Lemma delete_sends v :
  sends (fun rq => method rq = DELETE) (Airtable.delete self v).
Proof.
  unfold Airtable.delete, Airtable._delete.
  destruct (isinstance_str v).
  - sends_steps. by apply _request_sends.
  - sends_steps. simpl.
    case_bool_decide; [apply sends_raise|by apply _request_sends].
Qed.

Lemma _batch_loop_sends P func chunks responses :
  (forall c, sends P (func c)) ->
  sends P (Airtable._batch_loop func chunks responses).
Proof.
  intros Hf. revert responses.
  induction chunks as [|c chunks IH]; intros responses; simpl; sends_steps.
Qed.

Lemma _batch_request_sends P func iterable :
  (forall c, sends P (func c)) ->
  sends P (Airtable._batch_request func iterable).
Proof.
  intros Hf. unfold Airtable._batch_request. sends_steps.
  by apply _batch_loop_sends.
Qed.

(** No request ends with the [RuntimeError] of a precondition. *)
Lemma _process_response_not_runtime r msg :
  Airtable._process_response r <> Raise (RuntimeError msg).
Proof.
  unfold Airtable._process_response.
  destruct (bool_decide _), (json r) as [v|]; try done.
  destruct (Airtable.has_error v) as [[]|]; try done.
  unfold getitem. destruct v as [| | | | |d]; try done.
  by destruct (assoc "error" d).
Qed.

Lemma _request_not_runtime meth u ps body s msg :
  fst (Airtable._request meth u ps body s) <> Raise (RuntimeError msg).
Proof.
  unfold Airtable._request.
  destruct (session_request _ (remote s)) as [[r|] w]; simpl; [|done].
  apply _process_response_not_runtime.
Qed.

End Requests.

(** ** Single calls: the cap and the two forms of update *)

Section SingleCalls.
Context `{Session} `{AirtableParams} `{Urllib}.
Variable self : Airtable.client.

(** C5. With more than [MAX_RECORDS_PER_CALL] = 10 items, [insert] of a
    sequence of fields-mappings, [update_records] and [delete] of a
    sequence of ids raise the [RuntimeError] of the cap and leave the
    state as it was: nothing was sent.  With at most 10 items none of them
    raises a [RuntimeError]. *)
Theorem single_call_cap (items : list value) (typecast : value) (s : state service) :
  (Airtable.MAX_RECORDS_PER_CALL < length items ->
     Airtable.insert self (VList items) typecast s
       = (Raise (RuntimeError "Only 10 records can be inserted per call"), s)
     /\ Airtable.update_records self (VList items) typecast s
       = (Raise (RuntimeError "Only 10 records can be updated per call"), s)
     /\ Airtable.delete self (VList items) s
       = (Raise (RuntimeError "Only 10 records can be deleted per call"), s))
  /\ (length items <= Airtable.MAX_RECORDS_PER_CALL ->
      forall msg,
        fst (Airtable.insert self (VList items) typecast s) <> Raise (RuntimeError msg)
        /\ fst (Airtable.update_records self (VList items) typecast s) <> Raise (RuntimeError msg)
        /\ fst (Airtable.delete self (VList items) s) <> Raise (RuntimeError msg)).
Proof.
  split.
  - intros Hlen.
    unfold Airtable.insert, Airtable.update_records, Airtable.delete. simpl.
    repeat split.
    + erewrite bind_ok by reflexivity. simpl. rewrite length_map.
      by rewrite bool_decide_eq_true_2.
    + erewrite bind_ok by reflexivity. by rewrite bool_decide_eq_true_2.
    + erewrite bind_ok by reflexivity. by rewrite bool_decide_eq_true_2.
  - intros Hlen msg.
    unfold Airtable.insert, Airtable.update_records, Airtable.delete. simpl.
    repeat split.
    + erewrite bind_ok by reflexivity. simpl. rewrite length_map.
      rewrite bool_decide_eq_false_2 by lia. apply _request_not_runtime.
    + erewrite bind_ok by reflexivity.
      rewrite bool_decide_eq_false_2 by lia. apply _request_not_runtime.
    + erewrite bind_ok by reflexivity.
      rewrite bool_decide_eq_false_2 by lia. apply _request_not_runtime.
Qed.

(** C8, as the code has it.  [update] takes the single-record form when
    [record_id] and [fields] are both set, whatever [records] is; failing
    that it takes the bulk form when [records] is set; a call that sets
    neither raises the usage error and sends nothing, and so does
    [update(record_id=None, fields=None, records=None)]. *)
Theorem update_conventions (record_id fields typecast records : value) (s : state service) :
  (truthy record_id = true -> truthy fields = true ->
     Airtable.update self record_id fields typecast records s
     = (u ← lift (Airtable.record_url self record_id);
        Airtable._patch u (VDict [("fields", fields); ("typecast", typecast)])) s)
  /\ (truthy record_id && truthy fields = false -> truthy records = true ->
      Airtable.update self record_id fields typecast records s
      = Airtable.update_records self records (VBool false) s)
  /\ (truthy record_id && truthy fields = false -> truthy records = false ->
      Airtable.update self record_id fields typecast records s = (Raise usage_error, s))
  /\ Airtable.update self VNone VNone typecast VNone s = (Raise usage_error, s).
Proof.
  unfold Airtable.update. repeat split.
  - by intros -> ->.
  - by intros -> ->.
  - by intros -> ->.
Qed.

(** C9. In the bulk form the caller's [typecast] is dropped.  The call
    [update(records=rs, typecast=t)] is the call with [typecast=False], and
    when [rs] is set it is [update_records(rs)], which is given no
    [typecast]: for up to ten records it sends exactly one request, the
    PATCH of these records with ["typecast"] false, whatever [t] is, and
    returns what that request returns.  No request of the bulk form is
    anything else.  The single-record form sends the caller's [typecast]. *)
Theorem update_bulk_drops_typecast (rs t : value) (s : state service) :
  Airtable.update self VNone VNone t rs s
    = Airtable.update self VNone VNone (VBool false) rs s
  /\ (truthy rs = true ->
      Airtable.update self VNone VNone t rs s
      = Airtable.update_records self rs (VBool false) s)
  /\ (forall l,
        truthy rs = true -> py_iter rs = Some l ->
        length l <= Airtable.MAX_RECORDS_PER_CALL ->
        Airtable.update self VNone VNone t rs s
          = Airtable._request PATCH (Airtable.url_table self) None
              (Some (VDict [("records", VList l); ("typecast", VBool false)])) s
        /\ log (snd (Airtable.update self VNone VNone t rs s))
          = log s ++ [Sent (update_request self l (VBool false))])
  /\ grows_by
       (fun rq => exists l, py_iter rs = Some l
          /\ rq = mkRequest PATCH (Airtable.url_table self) None
                    (Some (VDict [("records", VList l); ("typecast", VBool false)])))
       s (snd (Airtable.update self VNone VNone t rs s))
  /\ (forall record_id fields u,
        truthy record_id = true -> truthy fields = true ->
        Airtable.record_url self record_id = Ok u ->
        log (snd (Airtable.update self record_id fields t rs s))
        = log s ++ [Sent (mkRequest PATCH u None
                            (Some (VDict [("fields", fields); ("typecast", t)])))]).
Proof.
  split; [done|]. split; [|split; [|split]].
  - unfold Airtable.update. simpl. by intros ->.
  - intros l Hrs Hl Hlen.
    assert (Airtable.update self VNone VNone t rs s
            = Airtable._request PATCH (Airtable.url_table self) None
                (Some (VDict [("records", VList l); ("typecast", VBool false)])) s) as Hrun.
    { unfold Airtable.update. simpl. rewrite Hrs.
      unfold Airtable.update_records.
      erewrite bind_ok by (by apply to_list_ok).
      by rewrite bool_decide_eq_false_2 by lia. }
    split; [done|]. rewrite Hrun. unfold Airtable._request.
    by destruct (session_request _ (remote s)) as [[r|] w].
  - unfold Airtable.update. simpl.
    destruct (truthy rs); [|apply grows_by_refl].
    unfold Airtable.update_records, to_list.
    destruct (py_iter rs) as [l|] eqn:Hrs; [|apply grows_by_refl].
    erewrite bind_ok by reflexivity.
    case_bool_decide; [apply grows_by_refl|].
    destruct (Airtable._patch _ _ s) as [r s1] eqn:Hr. simpl.
    revert Hr. apply _request_sends. by exists l.
  - intros record_id fields u Hid Hf Hu.
    unfold Airtable.update. rewrite Hid, Hf. simpl.
    erewrite bind_ok by (unfold lift; by rewrite Hu).
    unfold Airtable._patch, Airtable._request.
    by destruct (session_request _ (remote s)) as [[r|] w].
Qed.

(** C10. With an empty [fields] mapping and no [records], [update] raises
    the usage error for every record id, and the state is as before: no
    request was sent. *)
Theorem update_empty_fields (r typecast : value) (s : state service) :
  Airtable.update self r (VDict []) typecast VNone s = (Raise usage_error, s).
Proof.
  unfold Airtable.update. simpl. by rewrite andb_false_r.
Qed.

End SingleCalls.

(** ** Batches *)

Section Batches.
Context `{Session} `{AirtableParams} `{Urllib}.
Variable self : Airtable.client.

Lemma _batch_loop_run func chunks responses s out s' :
  Airtable._batch_loop func chunks responses s = (Ok out, s')
  <-> exists ls, batch_run func chunks s ls s' /\ out = responses ++ concat ls.
Proof.
  revert responses s. induction chunks as [|c chunks IH]; intros responses s; simpl.
  - split.
    + intros [= <- <-]. exists []. split; [constructor|by rewrite app_nil_r].
    + intros (ls & Hrun & ->). inversion Hrun; subst. simpl. by rewrite app_nil_r.
  - split.
    + intros Hr.
      apply bind_inv in Hr as [(v & s1 & Hv & Hr)|(e & _ & ?)]; [|done].
      apply bind_inv in Hr as [(l & s2 & Hl & Hr)|(e & _ & ?)]; [|done].
      apply to_list_inv in Hl as [-> Hl].
      destruct (py_iter v) as [l'|] eqn:Hiter; [|done]. injection Hl as <-.
      erewrite bind_ok in Hr by reflexivity.
      apply IH in Hr as (ls & Hrun & ->).
      exists (l :: ls). split; [by econstructor|].
      simpl. by rewrite app_assoc.
    + intros (ls & Hrun & ->). inversion Hrun as [|? ? ? v s1 l ls' ? Hv Hl Hrest]; subst.
      erewrite bind_ok by done.
      erewrite bind_ok by (by apply to_list_ok).
      erewrite bind_ok by reflexivity.
      apply IH. exists ls'. split; [done|]. simpl. by rewrite app_assoc.
Qed.

Lemma insert_group_answered group typecast s v w' :
  length group <= 10 ->
  answers (remote s) (insert_request self group typecast) v w' ->
  Airtable.insert self (VList group) typecast s
  = (Ok v, {| remote := w'; log := log s ++ [Sent (insert_request self group typecast)] |}).
Proof.
  intros Hlen Hans. unfold Airtable.insert. simpl.
  erewrite bind_ok by reflexivity. simpl. rewrite length_map.
  rewrite bool_decide_eq_false_2 by (unfold Airtable.MAX_RECORDS_PER_CALL; lia).
  by apply _request_answered.
Qed.

Lemma chunker_23 {A} (l : list A) :
  length l = 23 ->
  Airtable.chunker l = [take 10 l; take 10 (drop 10 l); drop 20 l].
Proof.
  intros Hl.
  rewrite chunker_long by lia.
  rewrite (chunker_long (drop 10 l)) by (rewrite length_drop; lia).
  rewrite drop_drop.
  rewrite chunker_short by (rewrite length_drop; lia).
  done.
Qed.

(** C2. [_batch_request] runs the operation over the chunks of its input
    in order and returns the results of the calls, each read as a
    sequence, one after the other.  For 23 records, [batch_insert] sends
    the three POSTs of the first ten, the next ten and the last three
    records, in that order with a pause after each, and, the service
    having answered them, returns what the three answers hold, in that
    order. *)
Theorem batch_insert_groups (records : list value) (typecast : value) (s : state service)
    (v1 v2 v3 : value) (r1 r2 r3 : list value) (w1 w2 w3 : service) :
  length records = 23 ->
  answers (remote s) (insert_request self (take 10 records) typecast) v1 w1 ->
  py_iter v1 = Some r1 ->
  answers w1 (insert_request self (take 10 (drop 10 records)) typecast) v2 w2 ->
  py_iter v2 = Some r2 ->
  answers w2 (insert_request self (drop 20 records) typecast) v3 w3 ->
  py_iter v3 = Some r3 ->
  (Airtable.batch_insert self (VList records) typecast s
   = (Ok (r1 ++ r2 ++ r3),
      {| remote := w3;
         log := log s ++
           [Sent (insert_request self (take 10 records) typecast); Slept;
            Sent (insert_request self (take 10 (drop 10 records)) typecast); Slept;
            Sent (insert_request self (drop 20 records) typecast); Slept] |})
   /\ Airtable.chunker records
      = [take 10 records; take 10 (drop 10 records); drop 20 records]
   /\ map length (Airtable.chunker records) = [10; 10; 3])
  /\ (forall func items s0 out s',
        Airtable._batch_request func (VList items) s0 = (Ok out, s')
        <-> exists ls,
              batch_run func (map VList (Airtable.chunker items)) s0 ls s'
              /\ out = concat ls).
Proof.
  intros Hlen A1 I1 A2 I2 A3 I3. split.
  - pose proof (chunker_23 records Hlen) as Hch. split; [|split; [done|]].
    + unfold Airtable.batch_insert, Airtable._batch_request.
      erewrite bind_ok by reflexivity. rewrite Hch.
      apply _batch_loop_run. exists [r1; r2; r3]. split.
      * econstructor.
        { apply insert_group_answered; [rewrite length_take; lia|done]. }
        { done. }
        econstructor.
        { apply insert_group_answered; [rewrite length_take; lia|done]. }
        { done. }
        econstructor.
        { apply insert_group_answered; [rewrite length_drop; lia|done]. }
        { done. }
        unfold slept. simpl. rewrite <- !app_assoc. simpl. constructor.
      * simpl. by rewrite app_nil_r.
    + rewrite Hch. simpl. rewrite !length_take, !length_drop. f_equal; [lia|].
      f_equal; [lia|]. f_equal. lia.
  - intros func items s0 out s'. unfold Airtable._batch_request.
    erewrite bind_ok by reflexivity. apply _batch_loop_run.
Qed.

Lemma _batch_loop_aborts func done c rest responses s ls s1 e s2 :
  batch_run func done s ls s1 ->
  func c s1 = (Raise e, s2) ->
  Airtable._batch_loop func (done ++ c :: rest) responses s = (Raise e, s2).
Proof.
  intros Hrun Hc. revert responses.
  induction Hrun as [s|group groups s v s1' l ls s' Hv Hl _ IH]; intros responses; simpl.
  - by erewrite bind_raise by done.
  - erewrite bind_ok by done.
    erewrite bind_ok by (by apply to_list_ok).
    erewrite bind_ok by reflexivity. by apply IH.
Qed.

(** X1. A batch is not a transaction: when the call for a group raises,
    the batch raises the same exception at once; the groups before it were
    run and their effects stay, the groups after it are never sent. *)
Theorem batch_aborts_at_first_error (func : value -> M value) (items : list value)
    (done rest : list value) (c : value) (ls : list (list value))
    (s s1 s2 : state service) (e : exn) :
  map VList (Airtable.chunker items) = done ++ c :: rest ->
  batch_run func done s ls s1 ->
  func c s1 = (Raise e, s2) ->
  Airtable._batch_request func (VList items) s = (Raise e, s2).
Proof.
  intros Hchunks Hrun Hc. unfold Airtable._batch_request.
  erewrite bind_ok by reflexivity. rewrite Hchunks.
  by eapply _batch_loop_aborts.
Qed.

(** X2. The result of a batch is what iterating each answer yields: when
    the service wraps the records of a bulk answer in an object, the
    result of [batch_insert] holds the key of that object, not the
    records. *)
Theorem batch_insert_of_wrapped_answer (group : list value) (typecast : value)
    (s : state service) (created : list value) (w' : service) :
  0 < length group <= 10 ->
  answers (remote s) (insert_request self group typecast)
    (VDict [("records", VList created)]) w' ->
  Airtable.batch_insert self (VList group) typecast s
  = (Ok [VStr "records"],
     {| remote := w';
        log := log s ++ [Sent (insert_request self group typecast); Slept] |}).
Proof.
  intros Hlen Hans. unfold Airtable.batch_insert, Airtable._batch_request.
  erewrite bind_ok by reflexivity. rewrite chunker_short by done. simpl.
  erewrite bind_ok by (apply insert_group_answered; [lia|done]).
  erewrite bind_ok by reflexivity.
  erewrite bind_ok by reflexivity.
  unfold mret, M_ret. simpl. by rewrite <- app_assoc.
Qed.

End Batches.

(** ** Listing *)

Section Listing.
Context `{Session} `{AirtableParams} `{Urllib}.
Variable self : Airtable.client.
Variable options : gmap string value.

Lemma _get_page_ok_inv offset s data s1 :
  Airtable._get_page self offset options s = (Ok data, s1) ->
  exists ps,
    Airtable._process_params (<["offset" := offset]> options) = Ok ps
    /\ log s1 = log s ++ [Sent (mkRequest GET (Airtable.url_table self) (Some ps) None)].
Proof.
  unfold Airtable._get_page. case_bool_decide; [done|].
  unfold Airtable._get.
  destruct (Airtable._process_params (<["offset":=offset]> options)) as [ps|e] eqn:Hps.
  - erewrite bind_ok by reflexivity. intros Hr. exists ps. split; [done|].
    unfold Airtable._request in Hr.
    destruct (session_request _ (remote s)) as [[r|] w]; by inversion Hr.
  - by erewrite bind_raise by reflexivity.
Qed.

Lemma token_spec d :
  token d = match dict_get (VDict d) "offset" VNone with
            | Ok t => if truthy t then Some t else None
            | Raise _ => None
            end.
Proof. unfold token. simpl. by destruct (assoc "offset" d). Qed.

Lemma get_iter_body_ok offset s d s1 :
  Airtable._get_page self offset options s = (Ok (VDict d), s1) ->
  Airtable.get_iter_body self options offset s
  = (Ok (records_value d, Airtable.Suspended (VDict d)), slept s1).
Proof.
  intros Hp. unfold Airtable.get_iter_body.
  erewrite bind_ok by done. by erewrite bind_ok by reflexivity.
Qed.

Lemma get_iter_step g offset s d s1 :
  next_offset g = Some offset ->
  Airtable._get_page self offset options s = (Ok (VDict d), s1) ->
  Airtable.get_iter self options g s
  = (Ok (Some (records_value d, Airtable.Suspended (VDict d))), slept s1).
Proof.
  intros Hg Hp. destruct g as [|[| | | | |d0]|]; try done; simpl in *.
  - injection Hg as <-. erewrite bind_ok by (by apply get_iter_body_ok). done.
  - erewrite bind_ok by reflexivity. rewrite token_spec in Hg. simpl in Hg.
    destruct (truthy _); [|done]. injection Hg as <-.
    erewrite bind_ok by (by apply get_iter_body_ok). done.
Qed.

Lemma get_iter_stop g s :
  reachable g -> next_offset g = None ->
  Airtable.get_iter self options g s = (Ok None, s).
Proof.
  intros Hr Hg. destruct g as [|[| | | | |d0]|]; try done; simpl in *.
  erewrite bind_ok by reflexivity. rewrite token_spec in Hg. simpl in Hg.
  by destruct (truthy _).
Qed.

Lemma get_iter_not_stop g offset s s' :
  next_offset g = Some offset ->
  Airtable.get_iter self options g s <> (Ok None, s').
Proof.
  intros Hg Hr. destruct g as [|[| | | | |d0]|]; try done; simpl in *.
  - apply bind_inv in Hr as [(a & s1 & _ & ?)|(e & _ & ?)]; done.
  - erewrite bind_ok in Hr by reflexivity. rewrite token_spec in Hg. simpl in Hg.
    destruct (truthy _); [|done].
    apply bind_inv in Hr as [(a & s1 & _ & ?)|(e & _ & ?)]; done.
Qed.

Lemma is_page_records d :
  is_page (VDict d) -> py_iter (records_value d) = Some (page_records d).
Proof.
  intros (d' & [= <-] & [Hn|[l Hl]]); unfold records_value, page_records.
  - by rewrite Hn.
  - by rewrite Hl.
Qed.

Section Model.
Hypothesis Hservice : listing_service self options.

Lemma listing_service_page offset s data s1 :
  Airtable._get_page self offset options s = (Ok data, s1) -> is_page data.
Proof.
  intros Hp. destruct (Hservice offset s) as (data' & s' & Hp' & Hpage).
  rewrite Hp in Hp'. by injection Hp' as -> _.
Qed.

(** With enough fuel [get_all] goes through a finite run of the listing
    and returns its pages. *)
Lemma get_all_loop_complete o s pages s' :
  listing self options o s pages s' ->
  forall g acc, reachable g -> next_offset g = o ->
    exists fuel,
      Airtable.get_all_loop self fuel options g acc s
      = Some (Ok (acc ++ concat pages), s').
Proof.
  induction 1 as [s|offset s d s1 pages s' Hp _ IH]; intros g acc Hr Hg.
  - exists 1. simpl. erewrite bindD_ok.
    2:{ unfold total. by rewrite get_iter_stop. }
    simpl. by rewrite app_nil_r.
  - destruct (IH (Airtable.Suspended (VDict d)) (acc ++ page_records d)) as [fuel Hfuel];
      [done|done|].
    exists (S fuel). simpl. erewrite bindD_ok.
    2:{ unfold total. by erewrite get_iter_step. }
    cbv beta iota. erewrite bindD_ok.
    2:{ unfold total. erewrite to_list_ok; [done|].
        apply is_page_records. by eapply listing_service_page. }
    by rewrite Hfuel, app_assoc.
Qed.

(** When [get_all] ends, the listing had a finite run and the result is
    its pages. *)
Lemma get_all_loop_sound fuel g acc s out :
  reachable g ->
  Airtable.get_all_loop self fuel options g acc s = Some out ->
  exists pages s',
    listing self options (next_offset g) s pages s'
    /\ out = (Ok (acc ++ concat pages), s').
Proof.
  revert g acc s. induction fuel as [|fuel IH]; intros g acc s Hr; [done|].
  simpl. destruct (next_offset g) as [offset|] eqn:Hg.
  - destruct (Hservice offset s) as (data & s1 & Hp & Hpage).
    pose proof Hpage as (d & -> & _).
    erewrite bindD_ok.
    2:{ unfold total. by erewrite get_iter_step. }
    cbv beta iota. erewrite bindD_ok.
    2:{ unfold total. erewrite to_list_ok; [done|]. by apply is_page_records. }
    intros Hloop. apply IH in Hloop as (pages & s' & Hl & ->); [|done].
    exists (page_records d :: pages), s'. split; [by econstructor|].
    simpl. by rewrite app_assoc.
  - erewrite bindD_ok.
    2:{ unfold total. by rewrite get_iter_stop. }
    intros [= <-]. exists [], s. split; [constructor|by rewrite app_nil_r].
Qed.

End Model.

(** C3. Over a listing endpoint that answers every request with a page:
    the first [next] of [get_iter] sends the request with [offset] none;
    resumed on a response with a token it sends the request with that
    token as [offset]; it stops exactly when the response it is resumed on
    has no token or an empty one.  [get_all] ends exactly when the run of
    the listing reaches a response without token, and it then returns the
    records of all the pages in order. *)
Theorem get_all_drains_listing :
  listing_service self options ->
  (forall s, exists ps d s1,
      Airtable._process_params (<["offset" := VNone]> options) = Ok ps
      /\ Airtable.get_iter self options Airtable.Created s
         = (Ok (Some (VList (page_records d), Airtable.Suspended (VDict d))), slept s1)
      /\ log s1 = log s ++ [Sent (mkRequest GET (Airtable.url_table self) (Some ps) None)])
  /\ (forall s d0 t, token d0 = Some t -> exists ps d s1,
      Airtable._process_params (<["offset" := t]> options) = Ok ps
      /\ Airtable.get_iter self options (Airtable.Suspended (VDict d0)) s
         = (Ok (Some (VList (page_records d), Airtable.Suspended (VDict d))), slept s1)
      /\ log s1 = log s ++ [Sent (mkRequest GET (Airtable.url_table self) (Some ps) None)])
  /\ (forall s d0,
      token d0 = None
      <-> Airtable.get_iter self options (Airtable.Suspended (VDict d0)) s = (Ok None, s))
  /\ (forall s,
      (exists fuel out, Airtable.get_all self fuel options s = Some out)
      <-> (exists pages s', listing self options (Some VNone) s pages s'))
  /\ (forall fuel s out,
      Airtable.get_all self fuel options s = Some out ->
      exists pages s',
        listing self options (Some VNone) s pages s'
        /\ out = (Ok (concat pages), s'))
  /\ (forall s pages s',
      listing self options (Some VNone) s pages s' ->
      exists fuel, Airtable.get_all self fuel options s = Some (Ok (concat pages), s')).
Proof.
  intros Hservice.
  assert (Hnext : forall g offset s, next_offset g = Some offset -> exists ps d s1,
      Airtable._process_params (<["offset" := offset]> options) = Ok ps
      /\ Airtable.get_iter self options g s
         = (Ok (Some (VList (page_records d), Airtable.Suspended (VDict d))), slept s1)
      /\ log s1 = log s ++ [Sent (mkRequest GET (Airtable.url_table self) (Some ps) None)]).
  { intros g offset s Hg.
    destruct (Hservice offset s) as (data & s1 & Hp & Hpage).
    pose proof Hpage as (d & -> & Hrec).
    destruct (_get_page_ok_inv _ _ _ _ Hp) as (ps & Hps & Hlog).
    exists ps, d, s1. split; [done|]. split; [|done].
    erewrite get_iter_step by done. do 3 f_equal.
    unfold records_value, page_records.
    destruct Hrec as [->|[l ->]]; done. }
  split; [intros s; by apply Hnext|].
  split; [intros s d0 t Ht; by apply Hnext|].
  assert (Hsound : forall fuel s out,
      Airtable.get_all self fuel options s = Some out ->
      exists pages s',
        listing self options (Some VNone) s pages s' /\ out = (Ok (concat pages), s')).
  { intros fuel s out Hout.
    by apply (get_all_loop_sound Hservice fuel Airtable.Created [] s out) in Hout. }
  assert (Hcomplete : forall s pages s',
      listing self options (Some VNone) s pages s' ->
      exists fuel, Airtable.get_all self fuel options s = Some (Ok (concat pages), s')).
  { intros s pages s' Hl.
    by apply (get_all_loop_complete Hservice _ _ _ _ Hl Airtable.Created []). }
  split; [|split; [|split]]; [|split|done|done].
  - intros s d0. split.
    + intros Ht. by apply get_iter_stop.
    + intros Hr. destruct (token d0) as [t|] eqn:Ht; [|done].
      by eapply get_iter_not_stop in Hr.
  - intros (fuel & out & Hout).
    destruct (Hsound _ _ _ Hout) as (pages & s' & Hl & _). by exists pages, s'.
  - intros (pages & s' & Hl).
    destruct (Hcomplete _ _ _ Hl) as [fuel Hfuel]. by exists fuel, (Ok (concat pages), s').
Qed.

End Listing.

(** ** Matching by field, and mirror *)

Section ByField.
Context `{Session} `{AirtableParams} `{Urllib}.
Variable self : Airtable.client.

Lemma match__unfold fuel field_name field_value options s :
  Airtable.match_ self fuel field_name field_value options s
  = match Airtable.get_all self fuel
            (<["formula" := from_name_and_value field_name field_value]> options) s with
    | Some (Ok records, s') => Some (Ok (default (VDict []) (head records)), s')
    | Some (Raise e, s') => Some (Raise e, s')
    | None => None
    end.
Proof.
  unfold Airtable.match_, mbind, D_bind.
  destruct (Airtable.get_all _ _ _ s) as [[[records|e] s']|]; [|done|done].
  by destruct records.
Qed.

Lemma match__none fuel field_name field_value options s s1 :
  Airtable.get_all self fuel
    (<["formula" := from_name_and_value field_name field_value]> options) s
    = Some (Ok [], s1) ->
  Airtable.match_ self fuel field_name field_value options s = Some (Ok (VDict []), s1).
Proof. intros Hall. by rewrite match__unfold, Hall. Qed.

(** C6. [match] lists with the field-equals-value formula as ["formula"],
    whatever formula the caller gave: every request it sends is the
    listing request for the options with that formula, and a formula in
    the caller's options changes nothing.  It returns the first record
    that [get_all] returns for these options, and the empty dictionary
    when [get_all] returns none. *)
Theorem match_first_or_empty (fuel : nat) (field_name field_value : value)
    (options : gmap string value) (s : state service) :
  Airtable.match_ self fuel field_name field_value options s
  = match Airtable.get_all self fuel
            (<["formula" := from_name_and_value field_name field_value]> options) s with
    | Some (Ok records, s') => Some (Ok (default (VDict []) (head records)), s')
    | Some (Raise e, s') => Some (Raise e, s')
    | None => None
    end
  /\ (forall theirs,
        Airtable.match_ self fuel field_name field_value (<["formula" := theirs]> options) s
        = Airtable.match_ self fuel field_name field_value options s)
  /\ (forall theirs offset,
        (<["offset" := offset]>
           (<["formula" := from_name_and_value field_name field_value]>
              (<["formula" := theirs]> options))) !! "formula"
        = Some (from_name_and_value field_name field_value))
  /\ (forall r s',
        Airtable.match_ self fuel field_name field_value options s = Some (r, s') ->
        grows_by
          (listing_request self
             (<["formula" := from_name_and_value field_name field_value]> options))
          s s')
  /\ (forall s',
        Airtable.get_all self fuel
          (<["formula" := from_name_and_value field_name field_value]> options) s
          = Some (Ok [], s') ->
        Airtable.match_ self fuel field_name field_value options s
        = Some (Ok (VDict []), s')).
Proof.
  split; [apply match__unfold|].
  split; [|split; [|split]].
  - intros theirs. unfold Airtable.match_. by rewrite insert_insert_eq.
  - intros theirs offset. rewrite lookup_insert_ne by done. apply lookup_insert_eq.
  - intros r s'. rewrite match__unfold.
    destruct (Airtable.get_all _ _ _ s) as [[[records|e] s1]|] eqn:Hall; [| |done].
    + intros [= <- <-]. by eapply get_all_sends.
    + intros [= <- <-]. by eapply get_all_sends.
  - intros s'. apply match__none.
Qed.

(** C7. When no record matches, [update_by_field] and [replace_by_field]
    return the empty dictionary, [delete_by_field] raises [KeyError], and
    nothing but the GETs of the listing was sent. *)
Theorem by_field_without_match (fuel : nat) (field_name field_value fields typecast : value)
    (options : gmap string value) (s s1 : state service) :
  Airtable.get_all self fuel
    (<["formula" := from_name_and_value field_name field_value]> options) s
    = Some (Ok [], s1) ->
  Airtable.update_by_field self fuel field_name field_value fields typecast options s
    = Some (Ok (VDict []), s1)
  /\ Airtable.replace_by_field self fuel field_name field_value fields typecast options s
    = Some (Ok (VDict []), s1)
  /\ Airtable.delete_by_field self fuel field_name field_value options s
    = Some (Raise (KeyError "id"), s1)
  /\ grows_by (fun rq => method rq = GET) s s1.
Proof.
  intros Hall. pose proof (match__none _ _ _ _ _ _ Hall) as Hmatch.
  repeat split.
  - unfold Airtable.update_by_field. by erewrite bindD_ok by done.
  - unfold Airtable.replace_by_field. by erewrite bindD_ok by done.
  - unfold Airtable.delete_by_field. erewrite bindD_ok by done.
    by erewrite bindD_raise by reflexivity.
  - eapply grows_by_weaken; [apply listing_request_get|].
    by eapply get_all_sends.
Qed.

(** *** Mirror *)

Lemma _get_page_answered options offset ps s v w' :
  options !! "offset" = None -> options !! "url" = None -> options !! "self" = None ->
  Airtable._process_params (<["offset" := offset]> options) = Ok ps ->
  answers (remote s) (mkRequest GET (Airtable.url_table self) (Some ps) None) v w' ->
  Airtable._get_page self offset options s
  = (Ok v, {| remote := w';
              log := log s ++ [Sent (mkRequest GET (Airtable.url_table self) (Some ps) None)] |}).
Proof.
  intros Ho Hu Hs Hps Hans. unfold Airtable._get_page.
  rewrite bool_decide_eq_false_2.
  2:{ rewrite Ho, Hu, Hs. intros [[? [=]]|[[? [=]]|[? [=]]]]. }
  unfold Airtable._get. erewrite bind_ok by (unfold lift; by rewrite Hps).
  by apply _request_answered.
Qed.

Lemma delete_group_answered ids s v w' :
  length ids <= 10 ->
  answers (remote s) (delete_request self ids) v w' ->
  Airtable.delete self (VList ids) s
  = (Ok v, {| remote := w'; log := log s ++ [Sent (delete_request self ids)] |}).
Proof.
  intros Hlen Hans. unfold Airtable.delete. simpl.
  erewrite bind_ok by reflexivity.
  rewrite bool_decide_eq_false_2 by (unfold Airtable.MAX_RECORDS_PER_CALL; lia).
  by apply _request_answered.
Qed.

Lemma get_all_single_page fuel options s d s1 l :
  Airtable._get_page self VNone options s = (Ok (VDict d), s1) ->
  assoc "records" d = Some (VList l) ->
  token d = None ->
  Airtable.get_all self (S (S fuel)) options s = Some (Ok l, slept s1).
Proof.
  intros Hp Hrec Htok. unfold Airtable.get_all. cbn [Airtable.get_all_loop].
  erewrite bindD_ok.
  2:{ unfold total. by erewrite (get_iter_step self options Airtable.Created). }
  cbv beta iota. erewrite bindD_ok.
  2:{ unfold total. erewrite to_list_ok; [done|]. unfold records_value. by rewrite Hrec. }
  erewrite bindD_ok.
  2:{ unfold total. by rewrite get_iter_stop. }
  done.
Qed.

Lemma batch_one_group func group v l s s1 :
  0 < length group <= 10 ->
  func (VList group) s = (Ok v, s1) ->
  py_iter v = Some l ->
  Airtable._batch_request func (VList group) s = (Ok l, slept s1).
Proof.
  intros Hlen Hf Hv. unfold Airtable._batch_request.
  erewrite bind_ok by reflexivity. rewrite chunker_short by done. simpl.
  erewrite bind_ok by done.
  erewrite bind_ok by (by apply to_list_ok).
  by erewrite bind_ok by reflexivity.
Qed.

Lemma mirror_unfold fuel records options s :
  Airtable.mirror self fuel records options s
  = match Airtable.get_all self fuel options s with
    | None => None
    | Some (Raise e, s1) => Some (Raise e, s1)
    | Some (Ok all, s1) =>
        match Airtable.ids_of all with
        | Raise e => Some (Raise e, s1)
        | Ok ids =>
            match Airtable.batch_delete self (VList ids) s1 with
            | (Raise e, s2) => Some (Raise e, s2)
            | (Ok deleted, s2) =>
                match Airtable.batch_insert self records (VBool false) s2 with
                | (Raise e, s3) => Some (Raise e, s3)
                | (Ok new, s3) => Some (Ok (new, deleted), s3)
                end
            end
        end
    end.
Proof.
  unfold Airtable.mirror, mbind, D_bind, total, lift.
  destruct (Airtable.get_all self fuel options s) as [[[all|e] s1]|]; [|done|done].
  destruct (Airtable.ids_of all) as [ids|e]; [|done].
  destruct (Airtable.batch_delete self (VList ids) s1) as [[deleted|e] s2]; [|done].
  by destruct (Airtable.batch_insert self records (VBool false) s2) as [[new|e] s3].
Qed.


End ByField.

(** ** Responses and single requests *)

Section Responses.
Context `{Session} `{AirtableParams} `{Urllib}.
Variable self : Airtable.client.

(** X3. A response with a status from 400 to 599 never gives a value: it
    raises [HTTPError] when its body is no JSON or a JSON object.  Any
    other status gives the decoded body, and [JSONDecodeError] when the
    body is no JSON. *)
Theorem response_status_decides (r : response) :
  ((400 <= status_code r < 600)%Z ->
     (forall v, Airtable._process_response r <> Ok v)
     /\ (json r = None \/ (exists d, json r = Some (VDict d)) ->
         Airtable._process_response r = Raise HTTPError))
  /\ (~ (400 <= status_code r < 600)%Z ->
      Airtable._process_response r
      = match json r with
        | Some v => Ok v
        | None => Raise JSONDecodeError
        end).
Proof.
  unfold Airtable._process_response. split.
  - intros Hst. rewrite bool_decide_eq_true_2 by done. split.
    + intros v. destruct (json r) as [body|]; [|done].
      destruct (Airtable.has_error body) as [[]|]; try done.
      by destruct (getitem body "error").
    + intros [->|[d ->]]; [done|]. simpl.
      case_bool_decide as Herr; [|done].
      by destruct Herr as [x ->].
  - intros Hst. by rewrite bool_decide_eq_false_2.
Qed.

(** Every request is logged once, answered or not. *)
Lemma _request_log meth u ps body s :
  log (snd (Airtable._request meth u ps body s))
  = log s ++ [Sent (mkRequest meth u ps body)].
Proof.
  unfold Airtable._request.
  by destruct (session_request _ (remote s)) as [[r|] w].
Qed.

Lemma _process_params_empty : Airtable._process_params ∅ = Ok [].
Proof. reflexivity. Qed.

(** X4. [get] of an id that is no string raises [TypeError] and sends
    nothing.  [get] of a string id sends exactly one GET, to the URL of
    the record and without parameters, and returns what the service
    answers. *)
Theorem get_one_record (record_id : value) (s : state service) :
  (isinstance_str record_id = false ->
     Airtable.get self record_id s = (Raise TypeError, s))
  /\ (forall i,
        record_id = VStr i ->
        log (snd (Airtable.get self record_id s))
        = log s ++ [Sent (mkRequest GET (posixpath_join (Airtable.url_table self) i)
                            (Some []) None)]
        /\ forall v w',
             answers (remote s)
               (mkRequest GET (posixpath_join (Airtable.url_table self) i) (Some []) None)
               v w' ->
             fst (Airtable.get self record_id s) = Ok v).
Proof.
  unfold Airtable.get. split.
  - intros Hid. erewrite bind_raise; [done|]. by destruct record_id.
  - intros i ->. erewrite bind_ok by reflexivity.
    unfold Airtable._get. erewrite bind_ok by reflexivity.
    split; [apply _request_log|].
    intros v w' Hans. by erewrite _request_answered.
Qed.

(** X5. A bulk call within the cap sends exactly one request, which holds
    all the items in the order given, whether the service accepts it or
    not; a dictionary given to [insert] is one record whatever its size,
    and a string given to [delete] is one id whatever its length. *)
Theorem single_call_one_request (items : list value) (typecast : value)
    (s : state service) :
  length items <= Airtable.MAX_RECORDS_PER_CALL ->
  log (snd (Airtable.insert self (VList items) typecast s))
    = log s ++ [Sent (insert_request self items typecast)]
  /\ log (snd (Airtable.update_records self (VList items) typecast s))
    = log s ++ [Sent (update_request self items typecast)]
  /\ log (snd (Airtable.delete self (VList items) s))
    = log s ++ [Sent (delete_request self items)]
  /\ (forall d,
        log (snd (Airtable.insert self (VDict d) typecast s))
        = log s ++ [Sent (mkRequest POST (Airtable.url_table self) None
                            (Some (VDict [("fields", VDict d); ("typecast", typecast)])))])
  /\ (forall i,
        log (snd (Airtable.delete self (VStr i) s))
        = log s ++ [Sent (mkRequest DELETE (posixpath_join (Airtable.url_table self) i)
                            None None)]).
Proof.
  intros Hlen.
  unfold Airtable.insert, Airtable.update_records, Airtable.delete. simpl.
  repeat split.
  - erewrite bind_ok by reflexivity. simpl. rewrite length_map.
    rewrite bool_decide_eq_false_2 by lia. apply _request_log.
  - erewrite bind_ok by reflexivity.
    rewrite bool_decide_eq_false_2 by lia. apply _request_log.
  - erewrite bind_ok by reflexivity.
    rewrite bool_decide_eq_false_2 by lia. apply _request_log.
  - intros d. apply _request_log.
  - intros i. erewrite bind_ok by reflexivity. apply _request_log.
Qed.

End Responses.

(** ** More on batches *)

Section MoreBatches.
Context `{Session} `{AirtableParams} `{Urllib}.
Variable self : Airtable.client.

Lemma batch_run_paced func (rq : list value -> request) groups s ls s' :
  (forall c v s0 s1, func (VList c) s0 = (Ok v, s1) ->
                     log s1 = log s0 ++ [Sent (rq c)]) ->
  batch_run func (map VList groups) s ls s' ->
  log s' = log s ++ paced (map rq groups).
Proof.
  intros Hf. revert s ls.
  induction groups as [|c groups IH]; intros s ls Hrun; simpl in Hrun.
  - inversion Hrun; subst. by rewrite app_nil_r.
  - inversion Hrun as [|? ? ? v s1 l ls' ? Hv Hl Hrest]; subst.
    apply IH in Hrest. rewrite Hrest. simpl.
    rewrite (Hf _ _ _ _ Hv). by rewrite <- !app_assoc.
Qed.

Lemma _batch_request_paced func (rq : list value -> request) items s out s' :
  (forall c v s0 s1, func (VList c) s0 = (Ok v, s1) ->
                     log s1 = log s0 ++ [Sent (rq c)]) ->
  Airtable._batch_request func (VList items) s = (Ok out, s') ->
  log s' = log s ++ paced (map rq (Airtable.chunker items)).
Proof.
  intros Hf. unfold Airtable._batch_request.
  erewrite bind_ok by reflexivity. intros Hrun.
  apply _batch_loop_run in Hrun as (ls & Hrun & _).
  by eapply batch_run_paced.
Qed.

Lemma insert_ok_log c typecast v s s1 :
  Airtable.insert self (VList c) typecast s = (Ok v, s1) ->
  log s1 = log s ++ [Sent (insert_request self c typecast)].
Proof.
  unfold Airtable.insert. simpl. erewrite bind_ok by reflexivity. simpl.
  case_bool_decide; [done|]. intros Hr.
  pose proof (_request_log POST (Airtable.url_table self) None
                (Some (VDict [("records", VList (map (fun f => VDict [("fields", f)]) c));
                              ("typecast", typecast)])) s) as Hlog.
  unfold Airtable._post in Hr. by rewrite Hr in Hlog.
Qed.

Lemma update_records_ok_log c typecast v s s1 :
  Airtable.update_records self (VList c) typecast s = (Ok v, s1) ->
  log s1 = log s ++ [Sent (update_request self c typecast)].
Proof.
  unfold Airtable.update_records. erewrite bind_ok by reflexivity.
  case_bool_decide; [done|]. intros Hr.
  pose proof (_request_log PATCH (Airtable.url_table self) None
                (Some (VDict [("records", VList c); ("typecast", typecast)])) s) as Hlog.
  unfold Airtable._patch in Hr. by rewrite Hr in Hlog.
Qed.

Lemma delete_ok_log c v s s1 :
  Airtable.delete self (VList c) s = (Ok v, s1) ->
  log s1 = log s ++ [Sent (delete_request self c)].
Proof.
  unfold Airtable.delete. simpl. erewrite bind_ok by reflexivity.
  case_bool_decide; [done|]. intros Hr.
  pose proof (_request_log DELETE
                (Airtable.url_table self +:+ "?" +:+ urlencode [("records[]", VList c)])
                None None s) as Hlog.
  unfold Airtable._delete in Hr. by rewrite Hr in Hlog.
Qed.

(** X6. When a batch over a list returns, it has sent exactly one request
    for each chunk of the list, in order, with one pause after each:
    [batch_insert] the POSTs and [batch_update] the PATCHes, both with the
    caller's [typecast], [batch_delete] the DELETEs. *)
Theorem batch_sends_the_chunks (items : list value) (typecast : value)
    (s : state service) :
  (forall out s',
     Airtable.batch_insert self (VList items) typecast s = (Ok out, s') ->
     log s' = log s ++ paced (map (fun c => insert_request self c typecast)
                                  (Airtable.chunker items)))
  /\ (forall out s',
        Airtable.batch_update self (VList items) typecast s = (Ok out, s') ->
        log s' = log s ++ paced (map (fun c => update_request self c typecast)
                                     (Airtable.chunker items)))
  /\ (forall out s',
        Airtable.batch_delete self (VList items) s = (Ok out, s') ->
        log s' = log s ++ paced (map (delete_request self) (Airtable.chunker items))).
Proof.
  repeat split; intros out s'.
  - apply (_batch_request_paced _ (fun c => insert_request self c typecast)).
    intros c v s0 s1. apply insert_ok_log.
  - apply (_batch_request_paced _ (fun c => update_request self c typecast)).
    intros c v s0 s1. apply update_records_ok_log.
  - apply (_batch_request_paced _ (delete_request self)).
    intros c v s0 s1. apply delete_ok_log.
Qed.

Lemma _batch_loop_not_runtime func chunks responses s msg :
  Forall (fun c => forall s0, fst (func c s0) <> Raise (RuntimeError msg)) chunks ->
  fst (Airtable._batch_loop func chunks responses s) <> Raise (RuntimeError msg).
Proof.
  intros Hf. revert responses s.
  induction Hf as [|c chunks Hc _ IH]; intros responses s; simpl; [done|].
  specialize (Hc s). destruct (func c s) as [[v|e] s1] eqn:Hv.
  - erewrite bind_ok by done.
    destruct (py_iter v) as [l|] eqn:Hl.
    + erewrite bind_ok by (by apply to_list_ok).
      erewrite bind_ok by reflexivity. apply IH.
    + by erewrite bind_raise by (unfold to_list; by rewrite Hl).
  - erewrite bind_raise by done. simpl in *. intros [= ->]. by apply Hc.
Qed.

(** X7. A batch over a list never trips the cap of the single calls: none
    of [batch_insert], [batch_update] and [batch_delete] ends with a
    [RuntimeError], however long the list. *)
Theorem batch_respects_cap (items : list value) (typecast : value)
    (s : state service) (msg : string) :
  fst (Airtable.batch_insert self (VList items) typecast s) <> Raise (RuntimeError msg)
  /\ fst (Airtable.batch_update self (VList items) typecast s) <> Raise (RuntimeError msg)
  /\ fst (Airtable.batch_delete self (VList items) s) <> Raise (RuntimeError msg).
Proof.
  unfold Airtable.batch_insert, Airtable.batch_update, Airtable.batch_delete,
    Airtable._batch_request.
  repeat split; erewrite bind_ok by reflexivity; apply _batch_loop_not_runtime;
    apply Forall_fmap; (eapply Forall_impl; [apply chunker_lengths|]);
    intros c Hc s0; simpl in *.
  - unfold Airtable.insert. simpl.
    erewrite bind_ok by reflexivity. simpl. rewrite length_map.
    rewrite bool_decide_eq_false_2 by (unfold Airtable.MAX_RECORDS_PER_CALL; lia).
    apply _request_not_runtime.
  - unfold Airtable.update_records. erewrite bind_ok by reflexivity.
    rewrite bool_decide_eq_false_2 by (unfold Airtable.MAX_RECORDS_PER_CALL; lia).
    apply _request_not_runtime.
  - unfold Airtable.delete. simpl. erewrite bind_ok by reflexivity.
    rewrite bool_decide_eq_false_2 by (unfold Airtable.MAX_RECORDS_PER_CALL; lia).
    apply _request_not_runtime.
Qed.

End MoreBatches.

(** ** More on listing *)

Section MoreListing.
Context `{Session} `{AirtableParams} `{Urllib}.
Variable self : Airtable.client.
Variable options : gmap string value.

Lemma get_iter_resume g offset s :
  next_offset g = Some offset ->
  Airtable.get_iter self options g s
  = (page ← Airtable.get_iter_body self options offset; mret (Some page)) s.
Proof.
  intros Hg. destruct g as [|[| | | | |d0]|]; try done; simpl in *.
  - by injection Hg as <-.
  - erewrite bind_ok by reflexivity. rewrite token_spec in Hg. simpl in Hg.
    destruct (truthy _); [|done]. by injection Hg as <-.
Qed.

Lemma get_iter_request_raises g offset s e s1 :
  next_offset g = Some offset ->
  Airtable._get_page self offset options s = (Raise e, s1) ->
  Airtable.get_iter self options g s = (Raise e, s1).
Proof.
  intros Hg Hp. rewrite (get_iter_resume _ _ _ Hg).
  erewrite bind_raise; [done|].
  unfold Airtable.get_iter_body. by erewrite bind_raise by done.
Qed.

Lemma get_iter_shape_raises g offset s data s1 :
  next_offset g = Some offset ->
  Airtable._get_page self offset options s = (Ok data, s1) ->
  isinstance_dict data = false ->
  Airtable.get_iter self options g s = (Raise AttributeError, s1).
Proof.
  intros Hg Hp Hd. rewrite (get_iter_resume _ _ _ Hg).
  erewrite bind_raise; [done|].
  unfold Airtable.get_iter_body. erewrite bind_ok by done.
  erewrite bind_raise; [done|]. by destruct data.
Qed.

Lemma get_all_loop_paced fuel g acc s out s' :
  reachable g ->
  Airtable.get_all_loop self fuel options g acc s = Some (Ok out, s') ->
  exists rqs,
    Forall (listing_request self options) rqs
    /\ log s' = log s ++ paced rqs
    /\ (is_Some (next_offset g) -> rqs <> []).
Proof.
  revert g acc s. induction fuel as [|fuel IH]; intros g acc s Hr; [done|].
  cbn [Airtable.get_all_loop]. destruct (next_offset g) as [offset|] eqn:Hg.
  - destruct (Airtable._get_page self offset options s) as [[data|e] s1] eqn:Hp.
    2:{ erewrite bindD_raise; [done|].
        unfold total. by erewrite get_iter_request_raises. }
    destruct (isinstance_dict data) eqn:Hd.
    2:{ erewrite bindD_raise; [done|].
        unfold total. by erewrite get_iter_shape_raises. }
    destruct data as [| | | | |d]; try done.
    erewrite bindD_ok.
    2:{ unfold total. by erewrite get_iter_step. }
    cbv beta iota.
    destruct (py_iter (records_value d)) as [l|] eqn:Hl.
    2:{ erewrite bindD_raise; [done|]. unfold total, to_list. by rewrite Hl. }
    erewrite bindD_ok.
    2:{ unfold total. by erewrite to_list_ok. }
    intros Hloop. apply IH in Hloop as (rqs & HF & Hlog & _); [|done].
    destruct (_get_page_ok_inv _ _ _ _ _ _ Hp) as (ps & Hps & Hlog1).
    exists (mkRequest GET (Airtable.url_table self) (Some ps) None :: rqs).
    split; [|split; [|done]].
    + constructor; [by exists offset, ps|done].
    + rewrite Hlog. unfold slept. simpl. rewrite Hlog1. by rewrite <- !app_assoc.
  - erewrite bindD_ok.
    2:{ unfold total. by rewrite get_iter_stop. }
    intros [= <- <-]. exists []. split; [constructor|].
    split; [by rewrite app_nil_r|]. by intros [? ?].
Qed.

(** X8. When [get_all] returns, it has sent listing requests only, at
    least one, and taken exactly one pause after each of them. *)
Theorem get_all_paced (fuel : nat) (s s' : state service) (records : list value) :
  Airtable.get_all self fuel options s = Some (Ok records, s') ->
  exists rqs,
    rqs <> []
    /\ Forall (listing_request self options) rqs
    /\ log s' = log s ++ paced rqs.
Proof.
  intros Hall.
  apply get_all_loop_paced in Hall as (rqs & HF & Hlog & Hne); [|done].
  exists rqs. split; [|done]. by apply Hne.
Qed.

Lemma get_all_loop_breaks offset s e s' :
  listing_breaks self options offset s e s' ->
  forall g acc, next_offset g = Some offset ->
    exists fuel, Airtable.get_all_loop self fuel options g acc s = Some (Raise e, s').
Proof.
  induction 1 as [offset s e s' Hp|offset s data s1 Hp Hd|offset s d s1 Hp Hl
                 |offset s d s1 l t e s' Hp Hl Ht _ IH]; intros g acc Hg.
  - exists 1. cbn [Airtable.get_all_loop]. erewrite bindD_raise; [done|].
    unfold total. by erewrite get_iter_request_raises.
  - exists 1. cbn [Airtable.get_all_loop]. erewrite bindD_raise; [done|].
    unfold total. by erewrite get_iter_shape_raises.
  - exists 1. cbn [Airtable.get_all_loop]. erewrite bindD_ok.
    2:{ unfold total. by erewrite get_iter_step. }
    cbv beta iota. erewrite bindD_raise; [done|].
    unfold total, to_list. by rewrite Hl.
  - destruct (IH (Airtable.Suspended (VDict d)) (acc ++ l)) as [fuel Hfuel]; [done|].
    exists (S fuel). cbn [Airtable.get_all_loop]. erewrite bindD_ok.
    2:{ unfold total. by erewrite get_iter_step. }
    cbv beta iota. erewrite bindD_ok.
    2:{ unfold total. by erewrite to_list_ok. }
    done.
Qed.

Lemma get_all_loop_raises fuel g acc s e s' :
  reachable g ->
  Airtable.get_all_loop self fuel options g acc s = Some (Raise e, s') ->
  exists offset, next_offset g = Some offset /\ listing_breaks self options offset s e s'.
Proof.
  revert g acc s. induction fuel as [|fuel IH]; intros g acc s Hr; [done|].
  cbn [Airtable.get_all_loop]. destruct (next_offset g) as [offset|] eqn:Hg.
  - intros Hloop. exists offset. split; [done|]. revert Hloop.
    destruct (Airtable._get_page self offset options s) as [[data|e0] s1] eqn:Hp.
    2:{ erewrite bindD_raise by (unfold total; by erewrite get_iter_request_raises).
        intros [= <- <-]. by constructor. }
    destruct (isinstance_dict data) eqn:Hd.
    2:{ erewrite bindD_raise by (unfold total; by erewrite get_iter_shape_raises).
        intros [= <- <-]. by eapply breaks_shape. }
    destruct data as [| | | | |d]; try done.
    erewrite bindD_ok.
    2:{ unfold total. by erewrite get_iter_step. }
    cbv beta iota.
    destruct (py_iter (records_value d)) as [l|] eqn:Hl.
    2:{ erewrite bindD_raise by (unfold total, to_list; by rewrite Hl).
        intros [= <- <-]. by eapply breaks_records. }
    erewrite bindD_ok.
    2:{ unfold total. by erewrite to_list_ok. }
    intros Hloop. apply IH in Hloop as (t & Ht & Hb); [|done].
    by eapply breaks_later.
  - erewrite bindD_ok.
    2:{ unfold total. by rewrite get_iter_stop. }
    done.
Qed.

(** X9. [get_all] raises an exception exactly when the run of the listing
    breaks with it: at the first request that raises, response that is no
    dictionary, or records that cannot be iterated.  The pages read before
    are dropped with it, and nothing is sent after. *)
Theorem get_all_raises_iff (s s' : state service) (e : exn) :
  (exists fuel, Airtable.get_all self fuel options s = Some (Raise e, s'))
  <-> listing_breaks self options VNone s e s'.
Proof.
  split.
  - intros [fuel Hall].
    apply get_all_loop_raises in Hall as (offset & [= <-] & Hb); done.
  - intros Hb. by apply (get_all_loop_breaks _ _ _ _ Hb Airtable.Created []).
Qed.

End MoreListing.

(** ** More on the operations by field and on mirror *)

Section MoreByField.
Context `{Session} `{AirtableParams} `{Urllib}.
Variable self : Airtable.client.

Lemma get_all_reserved fuel options s :
  is_Some (options !! "offset") \/ is_Some (options !! "url") ->
  Airtable.get_all self (S fuel) options s = Some (Raise TypeError, s).
Proof.
  intros Hres. unfold Airtable.get_all. cbn [Airtable.get_all_loop].
  erewrite bindD_raise; [done|]. unfold total.
  erewrite (get_iter_request_raises self options Airtable.Created VNone); [done|done|].
  unfold Airtable._get_page. rewrite bool_decide_eq_true_2; [done|].
  destruct Hres; auto.
Qed.

(** X10. The options of a listing cannot name [offset] or [url], the
    keywords the call of [_get] binds itself: [get_all], [match] and
    [mirror] then raise [TypeError] before anything is sent, so [mirror]
    deletes nothing. *)
Theorem reserved_option_names (fuel : nat) (options : gmap string value)
    (s : state service) :
  is_Some (options !! "offset") \/ is_Some (options !! "url") ->
  Airtable.get_all self (S fuel) options s = Some (Raise TypeError, s)
  /\ (forall field_name field_value,
        Airtable.match_ self (S fuel) field_name field_value options s
        = Some (Raise TypeError, s))
  /\ (forall records,
        Airtable.mirror self (S fuel) records options s = Some (Raise TypeError, s)).
Proof.
  intros Hres. split; [by apply get_all_reserved|]. split.
  - intros field_name field_value. unfold Airtable.match_.
    erewrite bindD_raise; [done|]. apply get_all_reserved.
    destruct Hres as [Ho|Hu]; [left|right]; by rewrite lookup_insert_ne.
  - intros records. unfold Airtable.mirror.
    erewrite bindD_raise; [done|]. by apply get_all_reserved.
Qed.

Lemma match__first fuel field_name field_value options s record rest s1 :
  Airtable.get_all self fuel
    (<["formula" := from_name_and_value field_name field_value]> options) s
    = Some (Ok (record :: rest), s1) ->
  Airtable.match_ self fuel field_name field_value options s = Some (Ok record, s1).
Proof. intros Hall. by rewrite match__unfold, Hall. Qed.

Lemma getitem_truthy record key v : getitem record key = Ok v -> truthy record = true.
Proof. destruct record as [| | | | |[|kv d]]; done. Qed.

(** X11. When records match, the operations by field act on the first
    one only, whose id is a string that is not empty: given fields that
    are not empty, [update_by_field] sends the PATCH and
    [replace_by_field] the PUT of these fields to the URL of its id, and
    [delete_by_field] sends the DELETE to that URL; each returns what that
    one request returns. *)
Theorem by_field_first_match (fuel : nat) (field_name field_value fields typecast : value)
    (options : gmap string value) (s s1 : state service)
    (record : value) (rest : list value) (i : string) :
  Airtable.get_all self fuel
    (<["formula" := from_name_and_value field_name field_value]> options) s
    = Some (Ok (record :: rest), s1) ->
  getitem record "id" = Ok (VStr i) ->
  i <> "" ->
  truthy fields = true ->
  Airtable.update_by_field self fuel field_name field_value fields typecast options s
    = Some (Airtable._request PATCH (posixpath_join (Airtable.url_table self) i) None
              (Some (VDict [("fields", fields); ("typecast", typecast)])) s1)
  /\ Airtable.replace_by_field self fuel field_name field_value fields typecast options s
    = Some (Airtable._request PUT (posixpath_join (Airtable.url_table self) i) None
              (Some (VDict [("fields", fields); ("typecast", typecast)])) s1)
  /\ Airtable.delete_by_field self fuel field_name field_value options s
    = Some (Airtable._request DELETE (posixpath_join (Airtable.url_table self) i)
              None None s1).
Proof.
  intros Hall Hid Hi Hf. pose proof (match__first _ _ _ _ _ _ _ _ Hall) as Hm.
  pose proof (getitem_truthy _ _ _ Hid) as Ht.
  assert (truthy (VStr i) = true) as Hti.
  { simpl. by rewrite (proj2 (String.eqb_neq i "")). }
  repeat split.
  - unfold Airtable.update_by_field. erewrite bindD_ok by done. rewrite Ht. simpl.
    erewrite bindD_ok by (unfold total, lift; by rewrite Hid).
    unfold total, Airtable.update. rewrite Hti, Hf. simpl.
    by erewrite bind_ok by reflexivity.
  - unfold Airtable.replace_by_field. erewrite bindD_ok by done. rewrite Ht. simpl.
    erewrite bindD_ok by (unfold total, lift; by rewrite Hid).
    unfold total, Airtable.replace. by erewrite bind_ok by reflexivity.
  - unfold Airtable.delete_by_field. erewrite bindD_ok by done.
    erewrite bindD_ok by (unfold total, lift; by rewrite Hid).
    by erewrite bindD_ok by reflexivity.
Qed.

(** X12. With a matching record and fields that are empty, the two differ:
    [update_by_field] raises the usage error of [update] and writes
    nothing, while [replace_by_field] sends the PUT of the empty fields to
    the record. *)
Theorem by_field_empty_fields (fuel : nat) (field_name field_value fields typecast : value)
    (options : gmap string value) (s s1 : state service)
    (record : value) (rest : list value) (i : string) :
  Airtable.get_all self fuel
    (<["formula" := from_name_and_value field_name field_value]> options) s
    = Some (Ok (record :: rest), s1) ->
  getitem record "id" = Ok (VStr i) ->
  truthy fields = false ->
  Airtable.update_by_field self fuel field_name field_value fields typecast options s
    = Some (Raise usage_error, s1)
  /\ Airtable.replace_by_field self fuel field_name field_value fields typecast options s
    = Some (Airtable._request PUT (posixpath_join (Airtable.url_table self) i) None
              (Some (VDict [("fields", fields); ("typecast", typecast)])) s1).
Proof.
  intros Hall Hid Hf. pose proof (match__first _ _ _ _ _ _ _ _ Hall) as Hm.
  pose proof (getitem_truthy _ _ _ Hid) as Ht.
  split.
  - unfold Airtable.update_by_field. erewrite bindD_ok by done. rewrite Ht. simpl.
    erewrite bindD_ok by (unfold total, lift; by rewrite Hid).
    unfold total, Airtable.update. by rewrite Hf, andb_false_r.
  - unfold Airtable.replace_by_field. erewrite bindD_ok by done. rewrite Ht. simpl.
    erewrite bindD_ok by (unfold total, lift; by rewrite Hid).
    unfold total, Airtable.replace. by erewrite bind_ok by reflexivity.
Qed.

Lemma _batch_request_empty func (s : state service) :
  Airtable._batch_request func (VList []) s = (Ok [], s).
Proof. reflexivity. Qed.

(** X14. Over a listing that shows no record, [mirror] sends no DELETE:
    it goes on to [batch_insert] in the state the listing left, and the
    list of deleted records it returns is empty. *)
Theorem mirror_of_empty_listing (fuel : nat) (records : value)
    (options : gmap string value) (s s1 : state service) :
  Airtable.get_all self fuel options s = Some (Ok [], s1) ->
  Airtable.mirror self fuel records options s
  = match Airtable.batch_insert self records (VBool false) s1 with
    | (Ok new_records, s') => Some (Ok (new_records, []), s')
    | (Raise e, s') => Some (Raise e, s')
    end.
Proof.
  intros Hall. unfold Airtable.mirror.
  erewrite bindD_ok by done.
  erewrite bindD_ok by reflexivity.
  erewrite bindD_ok by (unfold total, Airtable.batch_delete; by rewrite _batch_request_empty).
  unfold mbind, D_bind, total.
  by destruct (Airtable.batch_insert self records (VBool false) s1) as [[new|e] s'].
Qed.

(** X15. [mirror] is not atomic: when the deletion went through and the
    insertion raises, [mirror] raises that exception in the state the
    failed insertion left, which continues the state after the deletion by
    POSTs only: what was deleted stays deleted, and the list of deleted
    records is not returned. *)
Theorem mirror_not_atomic (fuel : nat) (records : value) (options : gmap string value)
    (s s1 s2 s3 : state service) (all ids deleted : list value) (e : exn) :
  Airtable.get_all self fuel options s = Some (Ok all, s1) ->
  Airtable.ids_of all = Ok ids ->
  Airtable.batch_delete self (VList ids) s1 = (Ok deleted, s2) ->
  Airtable.batch_insert self records (VBool false) s2 = (Raise e, s3) ->
  Airtable.mirror self fuel records options s = Some (Raise e, s3)
  /\ log s2 = log s1 ++ paced (map (delete_request self) (Airtable.chunker ids))
  /\ grows_by (fun rq => method rq = POST) s2 s3.
Proof.
  intros Hall Hids Hdel Hins. split; [|split].
  - unfold Airtable.mirror.
    erewrite bindD_ok by done.
    erewrite bindD_ok by (unfold total, lift; by rewrite Hids).
    erewrite bindD_ok by (unfold total; by rewrite Hdel).
    by erewrite bindD_raise by (unfold total; by rewrite Hins).
  - unfold Airtable.batch_delete in Hdel.
    eapply (_batch_request_paced _ (delete_request self)); [|done].
    intros c v s0 s1'. apply delete_ok_log.
  - revert Hins. apply _batch_request_sends. intros c. apply insert_sends.
Qed.

End MoreByField.

(** ** URLs and parameters *)

Section UrlsAndParams.
Context `{Session} `{AirtableParams} `{Urllib}.
Variable self : Airtable.client.

Lemma append_inj_l (a x y : string) : a +:+ x = a +:+ y -> x = y.
Proof. induction a as [|c a IH]; simpl; [done|]. intros [= Ha]. by apply IH. Qed.

(** X16. Record ids that do not start with a slash have URLs of their
    own: two of them with the same URL are the same id.  An id that
    starts with a slash is its own URL, the URL of the table being
    dropped. *)
Theorem record_url_injective :
  (forall i j,
     String.prefix "/" i = false -> String.prefix "/" j = false ->
     Airtable.record_url self (VStr i) = Airtable.record_url self (VStr j) ->
     i = j)
  /\ (forall i,
        String.prefix "/" i = true ->
        Airtable.record_url self (VStr i) = Ok i).
Proof.
  unfold Airtable.record_url, posixpath_join. split.
  - intros i j -> ->.
    destruct (String.eqb _ "" || ends_with_slash _); intros [= Hij].
    + by apply append_inj_l in Hij.
    + apply append_inj_l in Hij. by injection Hij.
  - by intros i ->.
Qed.

Lemma params_fold_raise items e : fold_left params_step items (Raise e) = Raise e.
Proof. by induction items. Qed.

Lemma params_fold_rejects items acc k v e :
  (k, v) ∈ items -> to_param_dict k v = Raise e ->
  exists e', fold_left params_step items acc = Raise e'.
Proof.
  intros Hin Hk. revert acc.
  induction items as [|item items IH]; intros acc; [by apply elem_of_nil in Hin|].
  apply elem_of_cons in Hin as [<-|Hin]; simpl.
  - destruct acc as [ps|e0]; simpl; [|by rewrite params_fold_raise; eauto].
    rewrite Hk, params_fold_raise. eauto.
  - by apply IH.
Qed.

Lemma sorted_items_elem (params : gmap string value) k v :
  (k, v) ∈ sorted_items params <-> params !! k = Some v.
Proof.
  unfold sorted_items. rewrite merge_sort_Permutation.
  apply elem_of_map_to_list.
Qed.

Lemma _process_params_rejects (params : gmap string value) k v e :
  params !! k = Some v -> to_param_dict k v = Raise e ->
  exists e', Airtable._process_params params = Raise e'.
Proof.
  intros Hk He. apply (params_fold_rejects _ _ k v e); [|done].
  by apply sorted_items_elem.
Qed.

(** X17. When the parameter class of one of the options raises, nothing
    is sent: [_process_params] raises, [_get] raises before its request,
    and [get_all] raises at its first page. *)
Theorem rejected_option_sends_nothing (params : gmap string value)
    (k : string) (v : value) (e : exn) :
  params !! k = Some v ->
  to_param_dict k v = Raise e ->
  (exists e', Airtable._process_params params = Raise e')
  /\ (forall u s, exists e', Airtable._get u params s = (Raise e', s))
  /\ (forall fuel s, exists e',
        Airtable.get_all self (S fuel) params s = Some (Raise e', s)).
Proof.
  intros Hk He. split; [by eapply _process_params_rejects|]. split.
  - intros u s. destruct (_process_params_rejects _ _ _ _ Hk He) as [e' He'].
    exists e'. unfold Airtable._get. erewrite bind_raise; [done|].
    unfold lift. by rewrite He'.
  - intros fuel s.
    destruct (decide (is_Some (params !! "offset") \/ is_Some (params !! "url")))
      as [Hres|Hres].
    { exists TypeError. by apply get_all_reserved. }
    assert (k <> "offset") as Hko.
    { intros ->. apply Hres. left. by rewrite Hk. }
    destruct (_process_params_rejects (<["offset" := VNone]> params) k v e) as [e' He'];
      [by rewrite lookup_insert_ne|done|].
    destruct (decide (is_Some (params !! "self"))) as [Hself|Hself].
    + exists TypeError. unfold Airtable.get_all. cbn [Airtable.get_all_loop].
      erewrite bindD_raise; [done|]. unfold total.
      erewrite (get_iter_request_raises self params Airtable.Created VNone); [done|done|].
      unfold Airtable._get_page. rewrite bool_decide_eq_true_2; [done|]. auto.
    + exists e'. unfold Airtable.get_all. cbn [Airtable.get_all_loop].
      erewrite bindD_raise; [done|]. unfold total.
      erewrite (get_iter_request_raises self params Airtable.Created VNone); [done|done|].
      unfold Airtable._get_page. rewrite bool_decide_eq_false_2 by tauto.
      unfold Airtable._get. erewrite bind_raise; [done|].
      unfold lift. by rewrite He'.
Qed.

Lemma od_set_keys key v d x :
  x ∈ (od_set key v d).*1 <-> x = key \/ x ∈ d.*1.
Proof.
  induction d as [|[k y] d IH]; simpl.
  - rewrite list_elem_of_singleton, elem_of_nil. tauto.
  - destruct (String.eqb k key) eqn:Hk; simpl.
    + apply String.eqb_eq in Hk as ->. rewrite !elem_of_cons. tauto.
    + rewrite !elem_of_cons, IH. tauto.
Qed.

Lemma od_set_NoDup key v d : NoDup d.*1 -> NoDup (od_set key v d).*1.
Proof.
  induction d as [|[k y] d IH]; simpl; intros Hd.
  - apply NoDup_singleton.
  - apply NoDup_cons in Hd as [Hk Hd].
    destruct (String.eqb k key) eqn:Hkey; simpl.
    + by apply NoDup_cons.
    + apply NoDup_cons. split; [|by apply IH].
      rewrite od_set_keys. intros [->|Hin]; [|done].
      by rewrite String.eqb_refl in Hkey.
Qed.

Lemma od_update_NoDup d e : NoDup d.*1 -> NoDup (od_update d e).*1.
Proof.
  unfold od_update. revert d.
  induction e as [|kv e IH]; intros d Hd; simpl; [done|].
  by apply IH, od_set_NoDup.
Qed.

Lemma params_fold_NoDup items acc ps :
  fold_left params_step items (Ok acc) = Ok ps -> NoDup acc.*1 -> NoDup ps.*1.
Proof.
  revert acc. induction items as [|item items IH]; intros acc; simpl.
  - by intros [= <-].
  - destruct (to_param_dict item.1 item.2) as [d|e]; [|by rewrite params_fold_raise].
    intros Hps Hacc. eapply IH; [done|]. by apply od_update_NoDup.
Qed.

(** X18. The wire parameters that [_process_params] builds never hold a
    key twice, whatever the parameter classes return. *)
Theorem processed_params_distinct (params : gmap string value)
    (ps : list (string * value)) :
  Airtable._process_params params = Ok ps -> NoDup ps.*1.
Proof.
  intros Hps. eapply (params_fold_NoDup (sorted_items params) []); [done|].
  constructor.
Qed.

End UrlsAndParams.

(** ** The keyword [record] of [search] *)

Section SearchKeywords.
Context `{Session} `{AirtableParams} `{Urllib}.
Variable self : Airtable.client.

Lemma get_all_rejects (params : gmap string value) k v e fuel s :
  params !! k = Some v -> to_param_dict k v = Raise e ->
  exists e', Airtable.get_all self (S fuel) params s = Some (Raise e', s).
Proof.
  intros Hk He.
  destruct (decide (is_Some (params !! "offset") \/ is_Some (params !! "url")
                    \/ is_Some (params !! "self"))) as [Hres|Hres].
  - exists TypeError. unfold Airtable.get_all. cbn [Airtable.get_all_loop].
    erewrite bindD_raise; [done|]. unfold total.
    erewrite (get_iter_request_raises self params Airtable.Created VNone); [done|done|].
    unfold Airtable._get_page. by rewrite bool_decide_eq_true_2.
  - assert (k <> "offset") as Hko.
    { intros ->. apply Hres. left. by rewrite Hk. }
    destruct (_process_params_rejects (<["offset" := VNone]> params) k v e) as [e' He'];
      [by rewrite lookup_insert_ne|done|].
    exists e'. unfold Airtable.get_all. cbn [Airtable.get_all_loop].
    erewrite bindD_raise; [done|]. unfold total.
    erewrite (get_iter_request_raises self params Airtable.Created VNone); [done|done|].
    unfold Airtable._get_page. rewrite bool_decide_eq_false_2 by done.
    unfold Airtable._get. erewrite bind_raise; [done|].
    unfold lift. by rewrite He'.
Qed.

(** X13. [search] has a keyword [record] that it never reads: given with
    whatever value, it is taken out of the options, and the run is
    [get_all] for the other keywords with the formula in place.  [match]
    has no such parameter and lists with [record] among its options: where
    the parameter classes reject that name, [match] raises before anything
    is sent.  With the same keywords, none of them [record], [match]
    returns the first record that [search] returns, or the empty
    dictionary. *)
Theorem search_drops_record (fuel : nat) (field_name field_value : value)
    (keywords : gmap string value) (s : state service) :
  (forall record,
     Airtable.search self fuel field_name field_value (<["record" := record]> keywords) s
     = Airtable.get_all self fuel
         (<["formula" := from_name_and_value field_name field_value]>
            (delete "record" keywords)) s)
  /\ (forall record e,
        to_param_dict "record" record = Raise e ->
        exists e',
          Airtable.match_ self (S fuel) field_name field_value
            (<["record" := record]> keywords) s
          = Some (Raise e', s))
  /\ (keywords !! "record" = None ->
      Airtable.match_ self fuel field_name field_value keywords s
      = match Airtable.search self fuel field_name field_value keywords s with
        | Some (Ok records, s') => Some (Ok (default (VDict []) (head records)), s')
        | Some (Raise e, s') => Some (Raise e, s')
        | None => None
        end).
Proof.
  split; [|split].
  - intros record. unfold Airtable.search. by rewrite delete_insert_eq.
  - intros record e He.
    destruct (get_all_rejects
                (<["formula" := from_name_and_value field_name field_value]>
                   (<["record" := record]> keywords))
                "record" record e fuel s) as [e' He'];
      [by rewrite lookup_insert_ne, lookup_insert_eq|done|].
    exists e'. unfold Airtable.match_. by erewrite bindD_raise.
  - intros Hk. unfold Airtable.search. rewrite delete_id by done.
    apply match__unfold.
Qed.

End SearchKeywords.

(** ** The client run against the table in memory *)

Import Sim.

(** Twenty-three records go out in three POSTs and come back in order. *)
Lemma batch_insert_groups_witness :
  exists s',
    Airtable.batch_insert base (VList people) (VBool false) (start empty_table)
    = (Ok (map inserted (seq 0 10) ++ map inserted (seq 10 10) ++ map inserted (seq 20 3)),
       s').
Proof.
  eexists. eapply proj1, proj1. eapply batch_insert_groups.
  - vm_compute. reflexivity.
  - answered.
  - vm_compute. reflexivity.
  - answered.
  - vm_compute. reflexivity.
  - answered.
  - vm_compute. reflexivity.
Defined.

(** Eleven ids to delete, the last one unknown: the ten rows of the first
    group are gone when the second group fails. *)
Lemma batch_aborts_at_first_error_witness :
  exists s2,
    Airtable.batch_delete base
      (VList (map (fun i => VStr ("rec" +:+ pretty i)) (seq 0 10) ++ [VStr "nobody"]))
      (start crowd)
    = (Raise HTTPError, s2)
    /\ length (rows (remote s2)) = 13.
Proof.
  eexists. split.
  - eapply (batch_aborts_at_first_error _ _ [_] []).
    + vm_compute. reflexivity.
    + econstructor; [vm_compute; reflexivity|vm_compute; reflexivity|constructor].
    + vm_compute. reflexivity.
  - vm_compute. reflexivity.
Defined.

(** One record inserted through the wrapping endpoint. *)
Lemma batch_insert_of_wrapped_answer_witness :
  exists s',
    @Airtable.batch_insert wrapping base (VList [named "A"]) (VBool false) (start empty_table)
    = (Ok [VStr "records"], s')
    /\ map row_fields (rows (remote s')) = [[("Name", VStr "A")]].
Proof.
  eexists. split.
  - eapply (@batch_insert_of_wrapped_answer wrapping); [simpl; lia|].
    eexists. split; vm_compute; reflexivity.
  - vm_compute. reflexivity.
Defined.

Lemma paged_listing_service : listing_service base {["page_size" := VInt 2]}.
Proof.
  intros offset s. eexists _, _. split.
  - vm_compute. reflexivity.
  - eexists. split; [reflexivity|]. right. eexists. vm_compute. reflexivity.
Qed.

Lemma three_rows_listed :
  exists out,
    Airtable.get_all base 3 {["page_size" := VInt 2]} (start three_rows) = Some out.
Proof. eexists. vm_compute. reflexivity. Defined.

(** Three rows listed two by two: the listing has a finite run, and
    [get_all] returns its pages. *)
Lemma get_all_drains_listing_witness :
  exists pages s',
    listing base {["page_size" := VInt 2]} (Some VNone) (start three_rows) pages s'
    /\ Airtable.get_all base 3 {["page_size" := VInt 2]} (start three_rows)
       = Some (Ok (concat pages), s').
Proof.
  destruct (get_all_drains_listing base _ paged_listing_service)
    as (_ & _ & _ & _ & Hsound & _).
  destruct three_rows_listed as [out Hrun].
  destruct (Hsound _ _ _ Hrun) as (pages & s' & Hl & Hout).
  exists pages, s'. split; [exact Hl|].
  exact (eq_trans Hrun (f_equal Some Hout)).
Defined.


(** Nobody is called Johnny. *)
Lemma by_field_without_match_witness :
  exists s1,
    Airtable.update_by_field base 2 (VStr "Name") (VStr "Johnny") (named "Jon") (VBool false)
      ∅ (start three_rows) = Some (Ok (VDict []), s1)
    /\ Airtable.replace_by_field base 2 (VStr "Name") (VStr "Johnny") (named "Jon") (VBool false)
         ∅ (start three_rows) = Some (Ok (VDict []), s1)
    /\ Airtable.delete_by_field base 2 (VStr "Name") (VStr "Johnny") ∅ (start three_rows)
       = Some (Raise (KeyError "id"), s1)
    /\ grows_by (fun rq => method rq = GET) (start three_rows) s1.
Proof.
  eexists. apply by_field_without_match. vm_compute. reflexivity.
Defined.

(** [update] given a record id with fields and a list of records as well:
    no usage error, the single record is updated and the list is left
    aside. *)
Lemma update_both_forms_counterexample :
  exists w,
    Airtable.update base (VStr "recA") (named "Jon") (VBool false)
      (VList [VDict [("id", VStr "recB"); ("fields", named "Marco")]]) (start three_rows)
    = (Ok (VDict [("id", VStr "recA"); ("fields", named "Jon")]),
       {| remote := w;
          log := [Sent (mkRequest PATCH "https://api.airtable.com/v0/app1/Table/recA" None
                          (Some (VDict [("fields", named "Jon");
                                        ("typecast", VBool false)])))] |}).
Proof.
  eexists. vm_compute. reflexivity.
Qed.


(** A bulk update asked with [typecast=True]: the one request sent says
    false. *)
Lemma update_bulk_drops_typecast_witness :
  log (snd (Airtable.update base VNone VNone (VBool true)
              (VList [VDict [("id", VStr "recA"); ("fields", named "Jon")]])
              (start three_rows)))
  = log (start three_rows)
    ++ [Sent (update_request base [VDict [("id", VStr "recA"); ("fields", named "Jon")]]
                (VBool false))].
Proof.
  refine (proj2 (proj1 (proj2 (proj2
            (update_bulk_drops_typecast base
               (VList [VDict [("id", VStr "recA"); ("fields", named "Jon")]])
               (VBool true) (start three_rows))))
            [VDict [("id", VStr "recA"); ("fields", named "Jon")]] _ _ _)).
  - reflexivity.
  - reflexivity.
  - unfold Airtable.MAX_RECORDS_PER_CALL. simpl. lia.
Defined.

(** ** More runs against the table in memory *)

Lemma single_call_one_request_witness :
  log (snd (Airtable.insert base (VList [named "A"; named "B"]) (VBool false)
              (start empty_table)))
  = log (start empty_table)
    ++ [Sent (insert_request base [named "A"; named "B"] (VBool false))].
Proof.
  refine (proj1 (single_call_one_request base [named "A"; named "B"] (VBool false)
                   (start empty_table) _)).
  unfold Airtable.MAX_RECORDS_PER_CALL. simpl. lia.
Defined.

Lemma three_rows_read :
  exists records s',
    Airtable.get_all base 3 {["page_size" := VInt 2]} (start three_rows)
    = Some (Ok records, s').
Proof. eexists _, _. vm_compute. reflexivity. Defined.

(** Two pages, two requests, a pause after each. *)
Lemma get_all_paced_witness :
  exists records s',
    Airtable.get_all base 3 {["page_size" := VInt 2]} (start three_rows)
    = Some (Ok records, s')
    /\ exists rqs,
         rqs <> []
         /\ Forall (listing_request base {["page_size" := VInt 2]}) rqs
         /\ log s' = log (start three_rows) ++ paced rqs.
Proof.
  destruct three_rows_read as (records & s' & Hall).
  exists records, s'. split; [exact Hall|].
  exact (get_all_paced base _ _ _ _ _ Hall).
Defined.

(** A caller who passes an offset of their own. *)
Lemma reserved_option_names_witness :
  Airtable.get_all base 1 {["offset" := VStr "recB"]} (start three_rows)
  = Some (Raise TypeError, start three_rows)
  /\ (forall field_name field_value,
        Airtable.match_ base 1 field_name field_value {["offset" := VStr "recB"]}
          (start three_rows)
        = Some (Raise TypeError, start three_rows))
  /\ (forall records,
        Airtable.mirror base 1 records {["offset" := VStr "recB"]} (start three_rows)
        = Some (Raise TypeError, start three_rows)).
Proof.
  apply (@reserved_option_names table_session table_params table_urllib base 0 _
           (start three_rows)).
  left. eexists. vm_compute. reflexivity.
Defined.

(** John is found and renamed, replaced or deleted. *)
Lemma by_field_first_match_witness :
  exists s1,
    Airtable.update_by_field base 2 (VStr "Name") (VStr "John") (named "Jon") (VBool false)
      ∅ (start three_rows)
    = Some (Airtable._request PATCH (posixpath_join (Airtable.url_table base) "recA") None
              (Some (VDict [("fields", named "Jon"); ("typecast", VBool false)])) s1)
    /\ Airtable.replace_by_field base 2 (VStr "Name") (VStr "John") (named "Jon")
         (VBool false) ∅ (start three_rows)
    = Some (Airtable._request PUT (posixpath_join (Airtable.url_table base) "recA") None
              (Some (VDict [("fields", named "Jon"); ("typecast", VBool false)])) s1)
    /\ Airtable.delete_by_field base 2 (VStr "Name") (VStr "John") ∅ (start three_rows)
    = Some (Airtable._request DELETE (posixpath_join (Airtable.url_table base) "recA")
              None None s1).
Proof.
  eexists. eapply by_field_first_match.
  - vm_compute. reflexivity.
  - vm_compute. reflexivity.
  - discriminate.
  - reflexivity.
Defined.

(** John is found, and there is nothing to write. *)
Lemma by_field_empty_fields_witness :
  exists s1,
    Airtable.update_by_field base 2 (VStr "Name") (VStr "John") (VDict []) (VBool false)
      ∅ (start three_rows)
    = Some (Raise usage_error, s1)
    /\ Airtable.replace_by_field base 2 (VStr "Name") (VStr "John") (VDict [])
         (VBool false) ∅ (start three_rows)
    = Some (Airtable._request PUT (posixpath_join (Airtable.url_table base) "recA") None
              (Some (VDict [("fields", VDict []); ("typecast", VBool false)])) s1).
Proof.
  eexists. eapply by_field_empty_fields.
  - vm_compute. reflexivity.
  - vm_compute. reflexivity.
  - reflexivity.
Defined.

(** Mirror into an empty table. *)
Lemma mirror_of_empty_listing_witness :
  exists s1,
    Airtable.mirror base 2 (VList [named "A"]) ∅ (start empty_table)
    = match Airtable.batch_insert base (VList [named "A"]) (VBool false) s1 with
      | (Ok new_records, s') => Some (Ok (new_records, []), s')
      | (Raise e, s') => Some (Raise e, s')
      end.
Proof.
  eexists. apply mirror_of_empty_listing. vm_compute. reflexivity.
Defined.

(** Mirror given a number for records: the two rows of the view are
    deleted, then the insertion fails. *)
Lemma mirror_not_atomic_witness :
  exists s3,
    Airtable.mirror base 2 (VInt 5) {["view" := VStr "V"]} (start three_rows)
    = Some (Raise TypeError, s3)
    /\ map row_id (rows (remote s3)) = ["recC"].
Proof.
  eexists. split.
  - eapply proj1. eapply mirror_not_atomic.
    + vm_compute. reflexivity.
    + vm_compute. reflexivity.
    + vm_compute. reflexivity.
    + vm_compute. reflexivity.
  - vm_compute. reflexivity.
Defined.

(** An option the parameter classes do not know. *)
Lemma rejected_option_sends_nothing_witness :
  (exists e', Airtable._process_params {["colour" := VStr "red"]} = Raise e')
  /\ (forall u s, exists e',
        Airtable._get u {["colour" := VStr "red"]} s = (Raise e', s))
  /\ (forall fuel s, exists e',
        Airtable.get_all base (S fuel) {["colour" := VStr "red"]} s = Some (Raise e', s)).
Proof.
  eapply (rejected_option_sends_nothing base _ "colour" (VStr "red") ValueError).
  - vm_compute. reflexivity.
  - reflexivity.
Defined.

Lemma processed_params_distinct_witness :
  exists ps,
    Airtable._process_params {["view" := VStr "V"; "formula" := VStr "{Name}='John'"]}
    = Ok ps
    /\ NoDup ps.*1.
Proof.
  eexists. split; [vm_compute; reflexivity|].
  apply (processed_params_distinct
           {["view" := VStr "V"; "formula" := VStr "{Name}='John'"]}).
  vm_compute. reflexivity.
Defined.

(** John is searched and matched with a keyword [record]: [search] finds
    him, [match] is refused before it asks. *)
Lemma search_drops_record_witness :
  (exists s',
     Airtable.search base 2 (VStr "Name") (VStr "John") (<["record" := VInt 1]> ∅)
       (start three_rows)
     = Some (Ok [VDict [("id", VStr "recA"); ("fields", named "John")]], s'))
  /\ (exists e',
        Airtable.match_ base 2 (VStr "Name") (VStr "John") (<["record" := VInt 1]> ∅)
          (start three_rows)
        = Some (Raise e', start three_rows)).
Proof.
  split.
  - eexists. etransitivity.
    + exact (proj1 (search_drops_record base 2 (VStr "Name") (VStr "John") ∅
                      (start three_rows)) (VInt 1)).
    + vm_compute. reflexivity.
  - exact (proj1 (proj2 (search_drops_record base 1 (VStr "Name") (VStr "John") ∅
                           (start three_rows))) (VInt 1) ValueError eq_refl).
Defined.
